(** * Wildfire-Agents: the TD3 and BCQ agents of [gym_forestfire/agents]

    A shallow embedding of [td3.py] and [bcq.py].  Tensor arithmetic is
    idealised: a scalar is a real number, a tensor is the row-major list of
    its entries, a batch is the list of its rows.  What the tensor framework
    supplies without the repository defining it (convolution, automatic
    differentiation with an optimizer step, random sampling, the replay
    buffer) is a field of the [Framework] class, so every theorem holds for
    any behaviour of those primitives.  Shape errors of the framework are not
    modelled: an elementwise operation on tensors of different sizes stops
    at the shorter one.

    The bound on the actions is a statement about float32 numbers themselves.
    It is settled over a second embedding of the functions it speaks of,
    module [F32], in IEEE 754 binary32 arithmetic and with the framework's
    shape errors. *)

From Stdlib Require Import Reals Lra Lia ZArith List String Bool.
From Stdlib Require Import DecimalString SpecFloat.
From stdpp Require Import base gmap strings.
Import ListNotations.

Open Scope string_scope.
Open Scope list_scope.

(** ** Python values and exceptions *)

Inductive exn : Type :=
| TypeError
| AttributeError
| ZeroDivisionError
| FileNotFoundError
| RuntimeError
| KeyError
| ValueError.

Inductive result (A : Type) : Type :=
| Ok (a : A)
| Raise (e : exn).
Arguments Ok {A} a.
Arguments Raise {A} e.

(** ** Tensors *)

Module Torch.

Definition tensor := list R.
Definition batch := list tensor.

Definition map2 {A B C} (f : A -> B -> C) (xs : list A) (ys : list B) : list C :=
  List.map (fun p => f (fst p) (snd p)) (combine xs ys).

Definition tscale (c : R) (t : tensor) : tensor := List.map (Rmult c) t.
Definition tadd (a b : tensor) : tensor := map2 Rplus a b.
Definition tsub (a b : tensor) : tensor := map2 Rminus a b.
Definition tmul (a b : tensor) : tensor := map2 Rmult a b.
Definition tmin (a b : tensor) : tensor := map2 Rmin a b.
Definition tmax (a b : tensor) : tensor := map2 Rmax a b.
Definition tpow2 (t : tensor) : tensor := List.map (fun x => (x * x)%R) t.

(** [x.clamp(lo, hi)]: the lower bound first, then the upper one, so that
    the result is [hi] when [lo > hi]. *)
Definition clamp1 (lo hi x : R) : R := Rmin (Rmax x lo) hi.
Definition clamp (lo hi : R) (t : tensor) : tensor := List.map (clamp1 lo hi) t.

Definition relu (t : tensor) : tensor := List.map (Rmax 0) t.
Definition ttanh (t : tensor) : tensor := List.map tanh t.
Definition texp (t : tensor) : tensor := List.map exp t.
Definition tlog (t : tensor) : tensor := List.map ln t.

Definition rsum (t : tensor) : R := fold_right Rplus 0%R t.

(** [t.mean()] over every entry of a batch. *)
Definition mean (b : batch) : R :=
  (rsum (concat b) / INR (length (concat b)))%R.

(** [F.mse_loss(input, target)] with the default mean reduction. *)
Definition mse_loss (input target : batch) : R :=
  mean (map2 (fun x y => tpow2 (tsub x y)) input target).

(** [torch.cat([a, b], 1)] joins the rows of two batches. *)
Definition cat1 (a b : batch) : batch := map2 (@app R) a b.

Definition dot (a b : tensor) : R := rsum (tmul a b).

(** [nn.Linear]: [weight] has one row of [length x] entries per output
    feature, stored row-major; the output has one entry per bias entry. *)
Fixpoint linear1 (weight bias x : tensor) : tensor :=
  match bias with
  | [] => []
  | b :: bias' =>
      (dot (firstn (length x) weight) x + b)%R
        :: linear1 (skipn (length x) weight) bias' x
  end.

Definition linear (weight bias : tensor) (xs : batch) : batch :=
  List.map (linear1 weight bias) xs.

(** The rows of a flat tensor, [n] entries each ([fuel] bounds the number
    of rows). *)
Fixpoint chunks (fuel n : nat) (flat : tensor) : batch :=
  match fuel with
  | O => []
  | S fuel' =>
      match flat with
      | [] => []
      | _ => firstn n flat :: chunks fuel' n (skipn n flat)
      end
  end.

(** [t.view(-1, n)] and [t.reshape(-1, n)]. *)
Definition view_cols (n : nat) (t : batch) : batch :=
  chunks (length (concat t)) n (concat t).

(** [t.reshape(rows, -1)]. *)
Definition reshape_rows (rows : nat) (t : batch) : batch :=
  view_cols (length (concat t) / rows) t.

(** [torch.repeat_interleave(t, n, 0)]: each row [n] times in a row. *)
Definition repeat_interleave (n : nat) (t : batch) : batch :=
  flat_map (fun row => repeat row n) t.

(** [t.repeat(n, 1)]: the whole batch [n] times. *)
Definition repeat_rows (n : nat) (t : batch) : batch :=
  concat (repeat t n).

(** [t.argmax(0)] of a one-column batch: the row of the first largest
    entry. *)
Fixpoint argmax_from (best : R) (besti i : nat) (xs : list R) : nat :=
  match xs with
  | [] => besti
  | x :: xs' =>
      if Rlt_dec best x then argmax_from x i (S i) xs'
      else argmax_from best besti (S i) xs'
  end.

Definition argmax0 (t : batch) : nat :=
  match List.map (hd 0%R) t with
  | [] => O
  | x :: xs => argmax_from x O 1 xs
  end.

(** [t.max(1)[0]]: the largest entry of each row. *)
Definition row_max (row : tensor) : R :=
  match row with
  | [] => 0%R
  | x :: xs => fold_left Rmax xs x
  end.

(** The same operations on batches, row by row. *)
Definition badd (a b : batch) : batch := map2 tadd a b.
Definition bmul (a b : batch) : batch := map2 tmul a b.
Definition bmin (a b : batch) : batch := map2 tmin a b.
Definition bmax (a b : batch) : batch := map2 tmax a b.
(** [t * c] and [c * t] for a Python float [c]. *)
Definition bmuls (t : batch) (c : R) : batch :=
  List.map (List.map (fun x => (x * c)%R)) t.
Definition bscale (c : R) (t : batch) : batch := List.map (tscale c) t.
Definition bclamp (lo hi : R) (t : batch) : batch := List.map (clamp lo hi) t.

End Torch.

(** ** Modules, state dictionaries and the framework's primitives *)

Module Nn.
Import Torch.

(** A module's named parameters in registration order, which is also the
    order of [parameters()] and the content of [state_dict()]. *)
Definition state_dict := list (string * tensor).

Definition keys (sd : state_dict) : list string := List.map fst sd.
Definition parameters (sd : state_dict) : list tensor := List.map snd sd.
Definition shapes (sd : state_dict) : list (string * nat) :=
  List.map (fun kv => (fst kv, length (snd kv))) sd.

Fixpoint get (sd : state_dict) (k : string) : option tensor :=
  match sd with
  | [] => None
  | (k', t) :: sd' => if String.eqb k k' then Some t else get sd' k
  end.

(** The tensor of the parameter registered under [k]. *)
Definition param (sd : state_dict) (k : string) : tensor :=
  match get sd k with Some t => t | None => [] end.

Definition has_key (sd : state_dict) (k : string) : bool :=
  existsb (String.eqb k) (keys sd).

Definition size_matches (sd : state_dict) (kv : string * tensor) : bool :=
  match get sd (fst kv) with
  | Some t => Nat.eqb (length t) (length (snd kv))
  | None => false
  end.

(** [module.load_state_dict(sd)] with the default [strict=True]: a missing
    key, an unexpected key or a size mismatch raises; otherwise every
    parameter takes the saved tensor of its name. *)
Definition load_state_dict (own sd : state_dict) : result state_dict :=
  if forallb (has_key sd) (keys own)
     && forallb (has_key own) (keys sd)
     && forallb (size_matches sd) own
  then Ok (List.map (fun kv => (fst kv, param sd (fst kv))) own)
  else Raise RuntimeError.

(** What one [replay_buffer.sample] returns. *)
Record transitions : Type := {
  tr_state : batch;
  tr_action : batch;
  tr_next_state : batch;
  tr_reward : batch;
  tr_not_done : batch
}.

(** The primitives the tensor framework supplies. *)
Class Framework : Type := {
  (** the content of an optimizer's [state_dict()] *)
  optim_state : Type;
  (** the state of the random generator *)
  rng : Type;
  (** the replay buffer, an external collaborator *)
  replay_buffer : Type;
  (** [nn.Conv2d(in, out, kernel, stride, padding)] applied with the given
      weight and bias *)
  conv2d : nat -> nat -> nat -> nat -> nat -> tensor -> tensor -> batch -> batch;
  (** [zero_grad(); loss.backward(); step()] of an optimizer over the
      parameters the loss is a function of *)
  optim_step : optim_state -> (state_dict -> R) -> state_dict -> state_dict * optim_state;
  (** [torch.randn((rows, cols))] *)
  randn : nat -> nat -> rng -> batch * rng;
  (** [replay_buffer.sample(batch_size)] *)
  sample : replay_buffer -> nat -> rng -> transitions * rng
}.

(** What [torch.save] writes and [torch.load] reads back. *)
Inductive blob `{Framework} : Type :=
| ParamBlob (sd : state_dict)
| OptimBlob (o : optim_state).

(** A call of the module, [nn.Module.__call__], on a [forward(self, x)] of one argument. *)
Definition call1 {A B} (forward : A -> B) (args : list A) : result B :=
  match args with
  | [x] => Ok (forward x)
  | _ => Raise TypeError
  end.

(** A call of the module, [nn.Module.__call__], on a [forward(self, x, y)] of two arguments. *)
Definition call2 {A B} (forward : A -> A -> B) (args : list A) : result B :=
  match args with
  | [x; y] => Ok (forward x y)
  | _ => Raise TypeError
  end.

End Nn.

(** ** The networks (identical in [td3.py] and [bcq.py]) *)

Module Actor.
Import Torch Nn.

Record t : Type := {
  image_obs : bool;
  cnn : bool;
  cnn_out : nat;
  max_action : R;
  params : state_dict
}.

Definition with_params (a : t) (sd : state_dict) : t :=
  {| image_obs := image_obs a; cnn := cnn a; cnn_out := cnn_out a;
     max_action := max_action a; params := sd |}.

(** The parameter names [__init__] registers, in order. *)
Definition names (image_obs cnn : bool) : list string :=
  (if image_obs && cnn
   then ["cnn.0.weight"; "cnn.0.bias"; "cnn.2.weight"; "cnn.2.bias";
         "cnn.4.weight"; "cnn.4.bias";
         "fcn.0.weight"; "fcn.0.bias"; "fcn.2.weight"; "fcn.2.bias"]
   else ["fcn.0.weight"; "fcn.0.bias"])
  ++ ["l1.weight"; "l1.bias"; "l2.weight"; "l2.bias"].

Section Forward.
Context `{Framework}.

Definition cnn_forward (p : state_dict) (x : batch) : batch :=
  let x := List.map relu (conv2d 1 32 8 4 0 (param p "cnn.0.weight") (param p "cnn.0.bias") x) in
  let x := List.map relu (conv2d 32 64 4 2 0 (param p "cnn.2.weight") (param p "cnn.2.bias") x) in
  List.map relu (conv2d 64 64 3 1 0 (param p "cnn.4.weight") (param p "cnn.4.bias") x).

Definition fcn (a : t) (x : batch) : batch :=
  let p := params a in
  if image_obs a && cnn a
  then linear (param p "fcn.2.weight") (param p "fcn.2.bias")
         (List.map relu (linear (param p "fcn.0.weight") (param p "fcn.0.bias") x))
  else List.map relu (linear (param p "fcn.0.weight") (param p "fcn.0.bias") x).

Definition forward (a : t) (state : batch) : batch :=
  let p := params a in
  let state :=
    if image_obs a && cnn a
    then view_cols (cnn_out a) (cnn_forward p state)
    else state in
  let state := fcn a state in
  let h := List.map relu (linear (param p "l1.weight") (param p "l1.bias") state) in
  List.map (tscale (max_action a))
    (List.map ttanh (linear (param p "l2.weight") (param p "l2.bias") h)).

End Forward.
End Actor.

Module Critic.
Import Torch Nn.

Record t : Type := {
  image_obs : bool;
  cnn : bool;
  cnn_out : nat;
  params : state_dict
}.

Definition with_params (c : t) (sd : state_dict) : t :=
  {| image_obs := image_obs c; cnn := cnn c; cnn_out := cnn_out c; params := sd |}.

Definition names (image_obs cnn : bool) : list string :=
  (if image_obs && cnn
   then ["cnn.0.weight"; "cnn.0.bias"; "cnn.2.weight"; "cnn.2.bias";
         "cnn.4.weight"; "cnn.4.bias";
         "fcn_1.0.weight"; "fcn_1.0.bias"; "fcn_1.2.weight"; "fcn_1.2.bias";
         "fcn_2.0.weight"; "fcn_2.0.bias"; "fcn_2.2.weight"; "fcn_2.2.bias"]
   else ["fcn_1.0.weight"; "fcn_1.0.bias"; "fcn_2.0.weight"; "fcn_2.0.bias"])
  ++ ["l1.weight"; "l1.bias"; "l2.weight"; "l2.bias";
      "l3.weight"; "l3.bias"; "l4.weight"; "l4.bias"].

Section Forward.
Context `{Framework}.

Definition fcn (c : t) (pre : string) (x : batch) : batch :=
  let p := params c in
  if image_obs c && cnn c
  then linear (param p (pre ++ ".2.weight")) (param p (pre ++ ".2.bias"))
         (List.map relu (linear (param p (pre ++ ".0.weight")) (param p (pre ++ ".0.bias")) x))
  else List.map relu (linear (param p (pre ++ ".0.weight")) (param p (pre ++ ".0.bias")) x).

(** The joint input [sa] both heads start from. *)
Definition state_action (c : t) (state action : batch) : batch :=
  if image_obs c && cnn c
  then cat1 (view_cols (cnn_out c) (Actor.cnn_forward (params c) state)) action
  else cat1 state action.

Definition Q1 (c : t) (state action : batch) : batch :=
  let p := params c in
  let sa := state_action c state action in
  let q1 := fcn c "fcn_1" sa in
  let q1 := List.map relu (linear (param p "l1.weight") (param p "l1.bias") q1) in
  linear (param p "l2.weight") (param p "l2.bias") q1.

Definition forward (c : t) (state action : batch) : batch * batch :=
  let p := params c in
  let sa := state_action c state action in
  let q1 := fcn c "fcn_1" sa in
  let q1 := List.map relu (linear (param p "l1.weight") (param p "l1.bias") q1) in
  let q1 := linear (param p "l2.weight") (param p "l2.bias") q1 in
  let q2 := fcn c "fcn_2" sa in
  let q2 := List.map relu (linear (param p "l3.weight") (param p "l3.bias") q2) in
  let q2 := linear (param p "l4.weight") (param p "l4.bias") q2 in
  (q1, q2).

(** Attribute lookup on a critic: the class defines [forward] and [Q1]. *)
Definition getattr (c : t) (name : string) : result (batch -> batch -> batch) :=
  if String.eqb name "Q1" then Ok (Q1 c)
  else if String.eqb name "forward" then Ok (fun s a => fst (forward c s a))
  else Raise AttributeError.

End Forward.
End Critic.

(** ** Methods as state transformers that may raise *)

Module Py.
Import Torch Nn.

Section World.
Context `{Framework}.

(** What a method can read and write: the agent it is called on, the random
    generator, the files [torch.save] wrote and the lines printed. *)
Record world (A : Type) : Type := {
  self : A;
  gen : rng;
  fs : gmap string blob;
  stdout : list string
}.
Arguments self {A} _.
Arguments gen {A} _.
Arguments fs {A} _.
Arguments stdout {A} _.

(** A raised exception keeps every effect made before it. *)
Definition M (A X : Type) : Type := world A -> world A * result X.

Definition ret {A X} (x : X) : M A X := fun w => (w, Ok x).

Definition bind {A X Y} (m : M A X) (k : X -> M A Y) : M A Y :=
  fun w =>
    match m w with
    | (w', Ok x) => k x w'
    | (w', Raise e) => (w', Raise e)
    end.

Definition raise {A X} (e : exn) : M A X := fun w => (w, Raise e).

Definition lift {A X} (r : result X) : M A X := fun w => (w, r).

Definition get_self {A} : M A A := fun w => (w, Ok (self w)).

Definition modify {A} (f : A -> A) : M A unit :=
  fun w =>
    ({| self := f (self w); gen := gen w; fs := fs w; stdout := stdout w |}, Ok tt).

Definition draw_randn {A} (rows cols : nat) : M A batch :=
  fun w =>
    let (x, g) := randn rows cols (gen w) in
    ({| self := self w; gen := g; fs := fs w; stdout := stdout w |}, Ok x).

(** The same process seen from another agent object. *)
Definition with_self {A} (w : world A) (a : A) : world A :=
  {| self := a; gen := gen w; fs := fs w; stdout := stdout w |}.

(** [torch.randn_like(x)] *)
Definition draw_randn_like {A} (x : batch) : M A batch :=
  draw_randn (length x) (length (hd [] x)).

Definition draw_sample {A} (rb : replay_buffer) (batch_size : nat) : M A transitions :=
  fun w =>
    let (tr, g) := sample rb batch_size (gen w) in
    ({| self := self w; gen := g; fs := fs w; stdout := stdout w |}, Ok tr).

(** [torch.save(obj, name)] *)
Definition torch_save {A} (obj : blob) (name : string) : M A unit :=
  fun w =>
    ({| self := self w; gen := gen w; fs := <[name := obj]> (fs w);
        stdout := stdout w |}, Ok tt).

(** [torch.load(name)] *)
Definition torch_load {A} (name : string) : M A blob :=
  fun w =>
    match fs w !! name with
    | Some obj => (w, Ok obj)
    | None => (w, Raise FileNotFoundError)
    end.

Definition print {A} (line : string) : M A unit :=
  fun w =>
    ({| self := self w; gen := gen w; fs := fs w;
        stdout := stdout w ++ [line] |}, Ok tt).

(** [for it in range(n): body] *)
Fixpoint for_range {A} (n : nat) (body : M A unit) : M A unit :=
  match n with
  | O => ret tt
  | S n' => bind body (fun _ => for_range n' body)
  end.

(** [module.load_state_dict(obj)] on what [torch.load] returned. *)
Definition module_load (own : state_dict) (obj : blob) : result state_dict :=
  match obj with
  | ParamBlob sd => load_state_dict own sd
  | OptimBlob _ => Raise RuntimeError
  end.

(** [optimizer.load_state_dict(obj)] on what [torch.load] returned. *)
Definition optim_load (obj : blob) : result optim_state :=
  match obj with
  | OptimBlob o => Ok o
  | ParamBlob _ => Raise KeyError
  end.

(** The loop
    [for param, target_param in zip(net.parameters(), target.parameters()):
       target_param.data.copy_(tau * param.data + (1 - tau) * target_param.data)];
    [zip] stops at the shorter of the two and leaves the rest untouched. *)
Fixpoint soft_update (tau : R) (online target : state_dict) : state_dict :=
  match online, target with
  | (_, p) :: online', (k, tp) :: target' =>
      (k, tadd (tscale tau p) (tscale (1 - tau) tp)) :: soft_update tau online' target'
  | _, _ => target
  end.

End World.

Arguments self {_ A} _.
Arguments gen {_ A} _.
Arguments fs {_ A} _.
Arguments stdout {_ A} _.

Declare Scope py_scope.
Delimit Scope py_scope with py.
Notation "x <- c1 ;; c2" := (bind c1 (fun x => c2))
  (at level 100, c1 at next level, right associativity) : py_scope.
Notation "c1 ;; c2" := (bind c1 (fun _ => c2))
  (at level 100, right associativity) : py_scope.

Definition nl : string := String (Ascii.ascii_of_nat 10) EmptyString.

End Py.

(** ** [td3.py]: class TD3 *)

Module TD3.
Import Torch Nn Py.

Section Agent.
Context `{Framework}.

Record t : Type := {
  actor : Actor.t;
  actor_target : Actor.t;
  actor_optimizer : optim_state;
  critic : Critic.t;
  critic_target : Critic.t;
  critic_optimizer : optim_state;
  max_action : R;
  image_obs : bool;
  cnn : bool;
  discount : R;
  tau : R;
  policy_noise : R;
  noise_clip : R;
  policy_freq : Z;
  total_it : Z
}.

Definition set_actor (a : t) (x : Actor.t) (o : optim_state) : t :=
  {| actor := x; actor_target := actor_target a; actor_optimizer := o;
     critic := critic a; critic_target := critic_target a;
     critic_optimizer := critic_optimizer a; max_action := max_action a;
     image_obs := image_obs a; cnn := cnn a; discount := discount a;
     tau := tau a; policy_noise := policy_noise a; noise_clip := noise_clip a;
     policy_freq := policy_freq a; total_it := total_it a |}.

Definition set_critic (a : t) (x : Critic.t) (o : optim_state) : t :=
  {| actor := actor a; actor_target := actor_target a;
     actor_optimizer := actor_optimizer a;
     critic := x; critic_target := critic_target a;
     critic_optimizer := o; max_action := max_action a;
     image_obs := image_obs a; cnn := cnn a; discount := discount a;
     tau := tau a; policy_noise := policy_noise a; noise_clip := noise_clip a;
     policy_freq := policy_freq a; total_it := total_it a |}.

Definition set_actor_target (a : t) (x : Actor.t) : t :=
  {| actor := actor a; actor_target := x;
     actor_optimizer := actor_optimizer a;
     critic := critic a; critic_target := critic_target a;
     critic_optimizer := critic_optimizer a; max_action := max_action a;
     image_obs := image_obs a; cnn := cnn a; discount := discount a;
     tau := tau a; policy_noise := policy_noise a; noise_clip := noise_clip a;
     policy_freq := policy_freq a; total_it := total_it a |}.

Definition set_critic_target (a : t) (x : Critic.t) : t :=
  {| actor := actor a; actor_target := actor_target a;
     actor_optimizer := actor_optimizer a;
     critic := critic a; critic_target := x;
     critic_optimizer := critic_optimizer a; max_action := max_action a;
     image_obs := image_obs a; cnn := cnn a; discount := discount a;
     tau := tau a; policy_noise := policy_noise a; noise_clip := noise_clip a;
     policy_freq := policy_freq a; total_it := total_it a |}.

Definition set_total_it (a : t) (n : Z) : t :=
  {| actor := actor a; actor_target := actor_target a;
     actor_optimizer := actor_optimizer a;
     critic := critic a; critic_target := critic_target a;
     critic_optimizer := critic_optimizer a; max_action := max_action a;
     image_obs := image_obs a; cnn := cnn a; discount := discount a;
     tau := tau a; policy_noise := policy_noise a; noise_clip := noise_clip a;
     policy_freq := policy_freq a; total_it := n |}.

(** [select_action]: the observation becomes one row (one image when
    [image_obs and cnn]); the actor's output is flattened. *)
Definition select_action (a : t) (state : batch) : tensor :=
  let state := [concat state] in
  concat (Actor.forward (actor a) state).

(** [state.view(-1, 1, 64, 64)] when [image_obs and cnn]. *)
Definition as_images (a : t) (x : batch) : batch :=
  if image_obs a && cnn a then view_cols (1 * 64 * 64) x else x.

(** The noise added to the target policy's action. *)
Definition target_noise (a : t) (eps : batch) : batch :=
  bclamp (- noise_clip a) (noise_clip a) (bmuls eps (policy_noise a)).

Definition target_action (a : t) (next_state eps : batch) : batch :=
  bclamp (- max_action a) (max_action a)
    (badd (Actor.forward (actor_target a) next_state) (target_noise a eps)).

(** [target_Q] of [train], computed under [torch.no_grad()]. *)
Definition target_Q (a : t) (next_state reward not_done eps : batch) : batch :=
  let next_action := target_action a next_state eps in
  let '(target_Q1, target_Q2) := Critic.forward (critic_target a) next_state next_action in
  let target_Q := bmin target_Q1 target_Q2 in
  badd reward (bmul (bmuls not_done (discount a)) target_Q).

(** [critic_loss] as a function of the critic's parameters. *)
Definition critic_loss (a : t) (state action target : batch) (theta : state_dict) : R :=
  let '(current_Q1, current_Q2) :=
    Critic.forward (Critic.with_params (critic a) theta) state action in
  (mse_loss current_Q1 target + mse_loss current_Q2 target)%R.

(** [actor_loss] as a function of the actor's parameters. *)
Definition actor_loss (a : t) (state : batch) (phi : state_dict) : R :=
  (- mean (Critic.Q1 (critic a) state
             (Actor.forward (Actor.with_params (actor a) phi) state)))%R.

Definition step_critic (a : t) (loss : state_dict -> R) : t :=
  let '(theta, o) := optim_step (critic_optimizer a) loss (Critic.params (critic a)) in
  set_critic a (Critic.with_params (critic a) theta) o.

Definition step_actor (a : t) (loss : state_dict -> R) : t :=
  let '(phi, o) := optim_step (actor_optimizer a) loss (Actor.params (actor a)) in
  set_actor a (Actor.with_params (actor a) phi) o.

Definition update_critic_target (a : t) : t :=
  set_critic_target a
    (Critic.with_params (critic_target a)
       (soft_update (tau a) (Critic.params (critic a)) (Critic.params (critic_target a)))).

Definition update_actor_target (a : t) : t :=
  set_actor_target a
    (Actor.with_params (actor_target a)
       (soft_update (tau a) (Actor.params (actor a)) (Actor.params (actor_target a)))).

Definition train (rb : replay_buffer) (batch_size : nat) : M t unit :=
  (modify (fun a => set_total_it a (total_it a + 1)) ;;
   tr <- draw_sample rb batch_size ;;
   a <- get_self ;;
   let state := as_images a (tr_state tr) in
   let next_state := as_images a (tr_next_state tr) in
   let action := tr_action tr in
   eps <- draw_randn_like action ;;
   let target := target_Q a next_state (tr_reward tr) (tr_not_done tr) eps in
   modify (fun a => step_critic a (critic_loss a state action target)) ;;
   a <- get_self ;;
   if (policy_freq a =? 0)%Z then raise ZeroDivisionError
   else if (total_it a mod policy_freq a =? 0)%Z then
     modify (fun a => step_actor a (actor_loss a state)) ;;
     modify update_critic_target ;;
     modify update_actor_target
   else ret tt)%py.

(** What one call of [train] draws: the sampled batch, the noise of
    [torch.randn_like(action)] and the generator it leaves. *)
Definition drawn (rb : replay_buffer) (batch_size : nat) (w : world t)
  : transitions * batch * rng :=
  let '(tr, g) := sample rb batch_size (gen w) in
  let '(eps, g) :=
    randn (length (tr_action tr)) (length (hd [] (tr_action tr))) g in
  (tr, eps, g).

(** The critic target of the call of [train] that starts in [w]. *)
Definition train_target (rb : replay_buffer) (batch_size : nat) (w : world t) : batch :=
  let '(tr, eps, _) := drawn rb batch_size w in
  target_Q (self w) (as_images (self w) (tr_next_state tr))
    (tr_reward tr) (tr_not_done tr) eps.

(** The critic loss of the call of [train] that starts in [w]. *)
Definition train_critic_loss (rb : replay_buffer) (batch_size : nat) (w : world t)
  : state_dict -> R :=
  let '(tr, _, _) := drawn rb batch_size w in
  critic_loss (self w) (as_images (self w) (tr_state tr)) (tr_action tr)
    (train_target rb batch_size w).

Definition save (filename : string) : M t unit :=
  (print ("This ran" ++ filename) ;;
   a <- get_self ;;
   torch_save (ParamBlob (Critic.params (critic a))) (filename ++ "_critic") ;;
   torch_save (OptimBlob (critic_optimizer a)) (filename ++ "_critic_optimizer") ;;
   torch_save (ParamBlob (Actor.params (actor a))) (filename ++ "_actor") ;;
   torch_save (OptimBlob (actor_optimizer a)) (filename ++ "_actor_optimizer"))%py.

Definition load (filename : string) : M t unit :=
  (obj <- torch_load (filename ++ "_critic") ;;
   a <- get_self ;;
   theta <- lift (module_load (Critic.params (critic a)) obj) ;;
   modify (fun a => set_critic a (Critic.with_params (critic a) theta) (critic_optimizer a)) ;;
   obj <- torch_load (filename ++ "_critic_optimizer") ;;
   o <- lift (optim_load obj) ;;
   modify (fun a => set_critic a (critic a) o) ;;
   modify (fun a => set_critic_target a (critic a)) ;;
   obj <- torch_load (filename ++ "_actor") ;;
   a <- get_self ;;
   phi <- lift (module_load (Actor.params (actor a)) obj) ;;
   modify (fun a => set_actor a (Actor.with_params (actor a) phi) (actor_optimizer a)) ;;
   obj <- torch_load (filename ++ "_actor_optimizer") ;;
   o <- lift (optim_load obj) ;;
   modify (fun a => set_actor a (actor a) o) ;;
   modify (fun a => set_actor_target a (actor a)) ;;
   print (nl ++ "files loaded successfully" ++ nl ++ filename))%py.

End Agent.
End TD3.

(** ** [bcq.py]: class VAE *)

Module VAE.
Import Torch Nn Py.

Record t : Type := {
  max_action : R;
  latent_dim : nat;
  params : state_dict
}.

Definition with_params (v : t) (sd : state_dict) : t :=
  {| max_action := max_action v; latent_dim := latent_dim v; params := sd |}.

Definition names : list string :=
  ["e1.weight"; "e1.bias"; "e2.weight"; "e2.bias";
   "mean.weight"; "mean.bias"; "log_std.weight"; "log_std.bias";
   "d1.weight"; "d1.bias"; "d2.weight"; "d2.bias"; "d3.weight"; "d3.bias"].

Section Forward.
Context `{Framework}.

(** The body of [decode] once [z] is known. *)
Definition decode_z (v : t) (state z : batch) : batch :=
  let p := params v in
  let a := List.map relu (linear (param p "d1.weight") (param p "d1.bias") (cat1 state z)) in
  let a := List.map relu (linear (param p "d2.weight") (param p "d2.bias") a) in
  bscale (max_action v)
    (List.map ttanh (linear (param p "d3.weight") (param p "d3.bias") a)).

(** [decode(state, z=None)]: without [z] the latent vector is drawn and
    clipped to [-0.5, 0.5]. *)
Definition decode {A} (v : t) (state : batch) (z : option batch) : M A batch :=
  (z <- match z with
        | Some z => ret z
        | None =>
            e <- draw_randn (length state) (latent_dim v) ;;
            ret (bclamp (-0.5) 0.5 e)
        end ;;
   ret (decode_z v state z))%py.

(** [mean] and [std] of [forward]. *)
Definition encode (v : t) (state action : batch) : batch * batch :=
  let p := params v in
  let z := List.map relu (linear (param p "e1.weight") (param p "e1.bias") (cat1 state action)) in
  let z := List.map relu (linear (param p "e2.weight") (param p "e2.bias") z) in
  let mean := linear (param p "mean.weight") (param p "mean.bias") z in
  let log_std := bclamp (-4) 15 (linear (param p "log_std.weight") (param p "log_std.bias") z) in
  (mean, List.map texp log_std).

(** [forward(state, action)] where [eps] is the draw of
    [torch.randn_like(std)]. *)
Definition forward_eps (v : t) (state action eps : batch) : batch * batch * batch :=
  let '(mean, std) := encode v state action in
  let z := badd mean (bmul std eps) in
  (decode_z v state z, mean, std).

Definition forward {A} (v : t) (state action : batch) : M A (batch * batch * batch * batch) :=
  (eps <- draw_randn_like (snd (encode v state action)) ;;
   ret (forward_eps v state action eps, eps))%py.

End Forward.
End VAE.

(** ** [bcq.py]: class BCQ *)

Module BCQ.
Import Torch Nn Py.

Section Agent.
Context `{Framework}.

Record t : Type := {
  actor : Actor.t;
  actor_target : Actor.t;
  actor_optimizer : optim_state;
  critic : Critic.t;
  critic_target : Critic.t;
  critic_optimizer : optim_state;
  vae : VAE.t;
  vae_optimizer : optim_state;
  max_action : R;
  image_obs : bool;
  cnn : bool;
  action_dim : nat;
  discount : R;
  tau : R;
  lmbda : R;
  policy_noise : R;
  noise_clip : R;
  policy_freq : Z;
  total_it : Z
}.

Definition set_actor (a : t) (x : Actor.t) (o : optim_state) : t :=
  {| actor := x; actor_target := actor_target a; actor_optimizer := o;
     critic := critic a; critic_target := critic_target a;
     critic_optimizer := critic_optimizer a;
     vae := vae a; vae_optimizer := vae_optimizer a; max_action := max_action a;
     image_obs := image_obs a; cnn := cnn a; action_dim := action_dim a;
     discount := discount a; tau := tau a; lmbda := lmbda a;
     policy_noise := policy_noise a; noise_clip := noise_clip a;
     policy_freq := policy_freq a; total_it := total_it a |}.

Definition set_critic (a : t) (x : Critic.t) (o : optim_state) : t :=
  {| actor := actor a; actor_target := actor_target a;
     actor_optimizer := actor_optimizer a;
     critic := x; critic_target := critic_target a; critic_optimizer := o;
     vae := vae a; vae_optimizer := vae_optimizer a; max_action := max_action a;
     image_obs := image_obs a; cnn := cnn a; action_dim := action_dim a;
     discount := discount a; tau := tau a; lmbda := lmbda a;
     policy_noise := policy_noise a; noise_clip := noise_clip a;
     policy_freq := policy_freq a; total_it := total_it a |}.

Definition set_vae (a : t) (x : VAE.t) (o : optim_state) : t :=
  {| actor := actor a; actor_target := actor_target a;
     actor_optimizer := actor_optimizer a;
     critic := critic a; critic_target := critic_target a;
     critic_optimizer := critic_optimizer a;
     vae := x; vae_optimizer := o; max_action := max_action a;
     image_obs := image_obs a; cnn := cnn a; action_dim := action_dim a;
     discount := discount a; tau := tau a; lmbda := lmbda a;
     policy_noise := policy_noise a; noise_clip := noise_clip a;
     policy_freq := policy_freq a; total_it := total_it a |}.

Definition set_actor_target (a : t) (x : Actor.t) : t :=
  {| actor := actor a; actor_target := x;
     actor_optimizer := actor_optimizer a;
     critic := critic a; critic_target := critic_target a;
     critic_optimizer := critic_optimizer a;
     vae := vae a; vae_optimizer := vae_optimizer a; max_action := max_action a;
     image_obs := image_obs a; cnn := cnn a; action_dim := action_dim a;
     discount := discount a; tau := tau a; lmbda := lmbda a;
     policy_noise := policy_noise a; noise_clip := noise_clip a;
     policy_freq := policy_freq a; total_it := total_it a |}.

Definition set_critic_target (a : t) (x : Critic.t) : t :=
  {| actor := actor a; actor_target := actor_target a;
     actor_optimizer := actor_optimizer a;
     critic := critic a; critic_target := x;
     critic_optimizer := critic_optimizer a;
     vae := vae a; vae_optimizer := vae_optimizer a; max_action := max_action a;
     image_obs := image_obs a; cnn := cnn a; action_dim := action_dim a;
     discount := discount a; tau := tau a; lmbda := lmbda a;
     policy_noise := policy_noise a; noise_clip := noise_clip a;
     policy_freq := policy_freq a; total_it := total_it a |}.

(** [self.actor(state, action)]: the call passes two arguments to the
    [Actor.forward(self, state)] of this file. *)
Definition call_actor (act : Actor.t) (state action : batch) : result batch :=
  call1 (Actor.forward act) [state; action].

Definition select_action (state : batch) : M t tensor :=
  (a <- get_self ;;
   let state := repeat_rows 100 [concat state] in
   sampled <- VAE.decode (vae a) state None ;;
   action <- lift (call_actor (actor a) state sampled) ;;
   q1 <- lift (Critic.getattr (critic a) "q1") ;;
   let ind := argmax0 (q1 state action) in
   ret (concat [nth ind action []]))%py.

(** [vae_loss] as a function of the VAE's parameters. *)
Definition vae_loss (a : t) (state action eps : batch) (theta : state_dict) : R :=
  let '(recon, mean, std) :=
    VAE.forward_eps (VAE.with_params (vae a) theta) state action eps in
  let recon_loss := mse_loss recon action in
  let KL_loss :=
    (-0.5 * Torch.mean
       (map2 tsub
          (map2 tsub
             (List.map (List.map (Rplus 1)) (List.map tlog (List.map tpow2 std)))
             (List.map tpow2 mean))
          (List.map tpow2 std)))%R in
  (recon_loss + 0.5 * KL_loss)%R.

Definition step_vae (a : t) (loss : state_dict -> R) : t :=
  let '(theta, o) := optim_step (vae_optimizer a) loss (VAE.params (vae a)) in
  set_vae a (VAE.with_params (vae a) theta) o.

(** [target_Q] of one iteration, from the two target heads' values on the
    ten-fold repeated next states. *)
Definition target_Q (a : t) (batch_size : nat)
    (target_Q1 target_Q2 reward not_done : batch) : batch :=
  let target_Q :=
    badd (bscale (lmbda a) (bmin target_Q1 target_Q2))
         (bscale (1 - lmbda a) (bmax target_Q1 target_Q2)) in
  let target_Q :=
    view_cols 1 [List.map row_max (reshape_rows batch_size target_Q)] in
  badd reward (bmul (bmuls not_done (discount a)) target_Q).

Definition critic_loss (a : t) (state action target : batch) (theta : state_dict) : R :=
  let '(current_Q1, current_Q2) :=
    Critic.forward (Critic.with_params (critic a) theta) state action in
  (mse_loss current_Q1 target + mse_loss current_Q2 target)%R.

Definition step_critic (a : t) (loss : state_dict -> R) : t :=
  let '(theta, o) := optim_step (critic_optimizer a) loss (Critic.params (critic a)) in
  set_critic a (Critic.with_params (critic a) theta) o.

(** [actor_loss] as a function of the actor's parameters; a forward pass
    that raises contributes no action. *)
Definition actor_loss (a : t) (q1 : batch -> batch -> batch)
    (state sampled_actions : batch) (phi : state_dict) : R :=
  match call_actor (Actor.with_params (actor a) phi) state sampled_actions with
  | Ok perturbed_actions => (- Torch.mean (q1 state perturbed_actions))%R
  | Raise _ => 0%R
  end.

Definition step_actor (a : t) (loss : state_dict -> R) : t :=
  let '(phi, o) := optim_step (actor_optimizer a) loss (Actor.params (actor a)) in
  set_actor a (Actor.with_params (actor a) phi) o.

Definition update_critic_target (a : t) : t :=
  set_critic_target a
    (Critic.with_params (critic_target a)
       (soft_update (tau a) (Critic.params (critic a)) (Critic.params (critic_target a)))).

Definition update_actor_target (a : t) : t :=
  set_actor_target a
    (Actor.with_params (actor_target a)
       (soft_update (tau a) (Actor.params (actor a)) (Actor.params (actor_target a)))).

(** The body of the loop of [train]. *)
Definition train_iteration (rb : replay_buffer) (batch_size : nat) : M t unit :=
  (tr <- draw_sample rb batch_size ;;
   let state := tr_state tr in
   let action := tr_action tr in
   (* Variational Auto-Encoder Training *)
   a <- get_self ;;
   out <- VAE.forward (vae a) state action ;;
   let eps := snd out in
   modify (fun a => step_vae a (vae_loss a state action eps)) ;;
   (* Critic Training *)
   a <- get_self ;;
   let next_state := repeat_interleave 10 (tr_next_state tr) in
   sampled <- VAE.decode (vae a) next_state None ;;
   next_action <- lift (call_actor (actor_target a) next_state sampled) ;;
   tq <- lift (call2 (Critic.forward (critic_target a)) [next_state; next_action]) ;;
   let target :=
     target_Q a batch_size (fst tq) (snd tq) (tr_reward tr) (tr_not_done tr) in
   modify (fun a => step_critic a (critic_loss a state action target)) ;;
   (* Pertubation Model / Action Training *)
   a <- get_self ;;
   sampled_actions <- VAE.decode (vae a) state None ;;
   _ <- lift (call_actor (actor a) state sampled_actions) ;;
   q1 <- lift (Critic.getattr (critic a) "q1") ;;
   modify (fun a => step_actor a (actor_loss a q1 state sampled_actions)) ;;
   (* Update Target Networks *)
   modify update_critic_target ;;
   modify update_actor_target)%py.

Definition train (rb : replay_buffer) (iterations : Z) (batch_size : nat) : M t unit :=
  for_range (Z.to_nat iterations) (train_iteration rb batch_size).

Definition save (filename : string) : M t unit :=
  (a <- get_self ;;
   torch_save (ParamBlob (Critic.params (critic a))) (filename ++ "_critic") ;;
   torch_save (OptimBlob (critic_optimizer a)) (filename ++ "_critic_optimizer") ;;
   torch_save (ParamBlob (Actor.params (actor a))) (filename ++ "_actor") ;;
   torch_save (OptimBlob (actor_optimizer a)) (filename ++ "_actor_optimizer"))%py.

Definition load (filename : string) : M t unit :=
  (obj <- torch_load (filename ++ "_critic") ;;
   a <- get_self ;;
   theta <- lift (module_load (Critic.params (critic a)) obj) ;;
   modify (fun a => set_critic a (Critic.with_params (critic a) theta) (critic_optimizer a)) ;;
   obj <- torch_load (filename ++ "_critic_optimizer") ;;
   o <- lift (optim_load obj) ;;
   modify (fun a => set_critic a (critic a) o) ;;
   modify (fun a => set_critic_target a (critic a)) ;;
   obj <- torch_load (filename ++ "_actor") ;;
   a <- get_self ;;
   phi <- lift (module_load (Actor.params (actor a)) obj) ;;
   modify (fun a => set_actor a (Actor.with_params (actor a) phi) (actor_optimizer a)) ;;
   obj <- torch_load (filename ++ "_actor_optimizer") ;;
   o <- lift (optim_load obj) ;;
   modify (fun a => set_actor a (actor a) o) ;;
   modify (fun a => set_actor_target a (actor a)) ;;
   print (nl ++ "loaded the model successfully" ++ nl))%py.

End Agent.
End BCQ.

(** ** A small instance of the framework, for concrete runs

    The optimizer counts its steps and halves every parameter; the random
    generator is a counter whose draws are constant tensors; the replay
    buffer is the list of the batches it will return. *)

Module Toy.
Import Torch Nn Py.

Definition no_transitions : transitions :=
  {| tr_state := []; tr_action := []; tr_next_state := [];
     tr_reward := []; tr_not_done := [] |}.

#[global] Instance framework : Framework := {|
  optim_state := nat;
  rng := nat;
  replay_buffer := list transitions;
  conv2d := fun _ _ _ _ _ _ _ x => x;
  optim_step := fun o _ p =>
    (List.map (fun kv => (fst kv, tscale (1 / 2) (snd kv))) p, S o);
  randn := fun rows cols g => (repeat (repeat (INR g) cols) rows, S g);
  sample := fun rb _ g => (nth g rb no_transitions, S g)
|}.

(** Networks over one state and one action entry, with the parameter
    names of the classes and every layer one unit wide. *)
Definition layers (names : list string) (weight bias : R) : state_dict :=
  List.map
    (fun k => (k, [if String.eqb (substring (String.length k - 4) 4 k) "bias"
                   then bias else weight]))
    names.

Definition actor0 : Actor.t :=
  {| Actor.image_obs := false; Actor.cnn := false; Actor.cnn_out := 0;
     Actor.max_action := 1;
     Actor.params := layers (Actor.names false false) 1 0 |}.

Definition critic0 : Critic.t :=
  {| Critic.image_obs := false; Critic.cnn := false; Critic.cnn_out := 0;
     Critic.params := layers (Critic.names false false) 2 1 |}.

Definition vae0 : VAE.t :=
  {| VAE.max_action := 1; VAE.latent_dim := 2;
     VAE.params := layers VAE.names 3 1 |}.

Definition td3 : TD3.t :=
  {| TD3.actor := actor0; TD3.actor_target := actor0; TD3.actor_optimizer := 0;
     TD3.critic := critic0; TD3.critic_target := critic0;
     TD3.critic_optimizer := 0;
     TD3.max_action := 1; TD3.image_obs := false; TD3.cnn := false;
     TD3.discount := 0.99; TD3.tau := 0.005; TD3.policy_noise := 0.2;
     TD3.noise_clip := 0.5; TD3.policy_freq := 2; TD3.total_it := 0 |}.

Definition bcq : BCQ.t :=
  {| BCQ.actor := actor0; BCQ.actor_target := actor0; BCQ.actor_optimizer := 0;
     BCQ.critic := critic0; BCQ.critic_target := critic0;
     BCQ.critic_optimizer := 0;
     BCQ.vae := vae0; BCQ.vae_optimizer := 7;
     BCQ.max_action := 1; BCQ.image_obs := false; BCQ.cnn := false;
     BCQ.action_dim := 1;
     BCQ.discount := 0.99; BCQ.tau := 0.005; BCQ.lmbda := 0.75;
     BCQ.policy_noise := 0.2; BCQ.noise_clip := 0.5;
     BCQ.policy_freq := 2; BCQ.total_it := 0 |}.

(** The same networks after some training: other values, same shapes. *)
Definition actor1 : Actor.t :=
  Actor.with_params actor0 (layers (Actor.names false false) 0.25 0.5).

Definition critic1 : Critic.t :=
  Critic.with_params critic0 (layers (Critic.names false false) 4 5).

(** One transition with a one-entry state and a one-entry action. *)
Definition batch0 : transitions :=
  {| tr_state := [[0.5%R]]; tr_action := [[0.1%R]]; tr_next_state := [[0.6%R]];
     tr_reward := [[1%R]]; tr_not_done := [[1%R]] |}.

Definition td3_later : TD3.t :=
  TD3.set_critic (TD3.set_actor td3 actor1 5) critic1 5.

Definition bcq_later : BCQ.t :=
  BCQ.set_critic (BCQ.set_actor bcq actor1 5) critic1 5.

(** A fresh process: nothing saved, nothing printed. *)
Definition boot {A} (a : A) : world A :=
  {| self := a; gen := 0; fs := ∅; stdout := [] |}.

End Toy.

(** * Vocabulary of the statements *)

Import Torch Nn Py.

(** The entry in row [i], column [j] of a batch. *)
Definition entry (t : batch) (i j : nat) : option R :=
  match nth_error t i with
  | Some row => nth_error row j
  | None => None
  end.

(** The target of double Q-learning for one transition, in the words of
    the specification: reward plus the discounted smaller target value,
    dropped when the episode is done. *)
Definition spec_td3_target (discount reward not_done target_Q1 target_Q2 : R) : R :=
  (reward + not_done * discount * Rmin target_Q1 target_Q2)%R.

(** The smoothed target action, in the words of the specification: the
    target actor's output plus Gaussian noise scaled by [policy_noise] and
    clamped to [[-noise_clip, noise_clip]], the sum clamped to
    [[-max_action, max_action]]. *)
Definition spec_td3_next_action (max_action policy_noise noise_clip : R)
    (target_actor_output gaussian : R) : R :=
  clamp1 (- max_action) max_action
    (target_actor_output + clamp1 (- noise_clip) noise_clip (gaussian * policy_noise))%R.

(** The soft update of one entry, in the words of the specification. *)
Definition spec_polyak (tau param target_param : R) : R :=
  (tau * param + (1 - tau) * target_param)%R.

(** The soft update of the target's parameter at one position, paired with
    the online network's parameter at the same position when there is one. *)
Definition spec_polyak_at (tau : R) (online target : option (string * tensor))
  : option (string * tensor) :=
  match target, online with
  | Some (k, tp), Some (_, p) => Some (k, map2 (spec_polyak tau) p tp)
  | Some (k, tp), None => Some (k, tp)
  | None, _ => None
  end.

(** A module can load what another one saved when the parameter names are
    unique, as they are in any module, and both have the same names and
    sizes in the same order. *)
Definition same_configuration (own saved : state_dict) : Prop :=
  List.NoDup (keys saved) /\ shapes own = shapes saved.

(** The files of a checkpoint under the prefix [filename]: the critic's and
    the actor's [state_dict()] and those of their optimizers, written over
    whatever the file system held. *)
Definition checkpoint `{Framework} (filename : string)
    (critic_sd : state_dict) (critic_opt : optim_state)
    (actor_sd : state_dict) (actor_opt : optim_state)
    (files : gmap string blob) : gmap string blob :=
  <[(filename ++ "_actor_optimizer")%string := OptimBlob actor_opt]>
    (<[(filename ++ "_actor")%string := ParamBlob actor_sd]>
       (<[(filename ++ "_critic_optimizer")%string := OptimBlob critic_opt]>
          (<[(filename ++ "_critic")%string := ParamBlob critic_sd]> files))).

(** Some file holds [obj]. *)
Definition persisted `{Framework} (files : gmap string blob) (obj : blob) : Prop :=
  exists name, files !! name = Some obj.

(** The agent in the middle of the call of [train] that starts in [w]: the
    counter incremented and the critic stepped, before the test on the
    counter. *)
Definition TD3_critic_stepped `{Framework} rb bs (w : world TD3.t) : TD3.t :=
  TD3.step_critic (TD3.set_total_it (self w) (TD3.total_it (self w) + 1))
    (TD3.train_critic_loss rb bs w).

(** The agent [train] leaves when it takes the delayed branch. *)
Definition TD3_delayed `{Framework} (a1 : TD3.t) (state : batch) : TD3.t :=
  TD3.update_actor_target
    (TD3.update_critic_target (TD3.step_actor a1 (TD3.actor_loss a1 state))).

(** The VAE loss of the first iteration of [train], on the batch it samples
    and the noise its forward pass draws. *)
Definition BCQ_first_vae_loss `{Framework} rb bs (w : world BCQ.t) : state_dict -> R :=
  let '(tr, g) := sample rb bs (gen w) in
  let std := snd (VAE.encode (BCQ.vae (self w)) (tr_state tr) (tr_action tr)) in
  let '(eps, _) := randn (length std) (length (hd [] std)) g in
  BCQ.vae_loss (self w) (tr_state tr) (tr_action tr) eps.

(** The agent [load] leaves when the four files load: the loaded critic
    and actor, their optimizers' states, and the targets rebound. *)
Definition TD3_loaded `{Framework} (a : TD3.t) (theta : state_dict) (co : optim_state)
    (phi : state_dict) (ao : optim_state) : TD3.t :=
  let c := Critic.with_params (TD3.critic a) theta in
  let p := Actor.with_params (TD3.actor a) phi in
  TD3.set_actor_target
    (TD3.set_actor (TD3.set_critic_target (TD3.set_critic a c co) c) p ao) p.

Definition BCQ_loaded `{Framework} (a : BCQ.t) (theta : state_dict) (co : optim_state)
    (phi : state_dict) (ao : optim_state) : BCQ.t :=
  let c := Critic.with_params (BCQ.critic a) theta in
  let p := Actor.with_params (BCQ.actor a) phi in
  BCQ.set_actor_target
    (BCQ.set_actor (BCQ.set_critic_target (BCQ.set_critic a c co) c) p ao) p.

(** * Construction: [init_weights] and the [__init__] methods *)

(** What the framework supplies to a constructor. *)
Class Initializers `{Framework} : Type := {
  (** the fresh weight and bias of [nn.Linear(in_features, out_features)] *)
  new_linear : nat -> nat -> rng -> tensor * tensor * rng;
  (** the fresh weight and bias of [nn.Conv2d(in, out, kernel_size, ...)] *)
  new_conv2d : nat -> nat -> nat -> rng -> tensor * tensor * rng;
  (** [nn.init.orthogonal_(weight)] *)
  orthogonal_ : tensor -> rng -> tensor * rng;
  (** [torch.optim.Adam(params, lr=lr)] before any step *)
  Adam : state_dict -> R -> optim_state
}.

(** The layers the constructors build. *)
Inductive layer : Type :=
| Conv2d (weight bias : tensor)
| Linear (weight bias : tensor)
| ReLU.

Section Construction.
Context `{Framework} `{!Initializers}.

Definition nn_Linear {A} (in_features out_features : nat) : M A layer :=
  fun w =>
    let '(weight, bias, g) := new_linear in_features out_features (gen w) in
    ({| self := self w; gen := g; fs := fs w; stdout := stdout w |},
     Ok (Linear weight bias)).

Definition nn_Conv2d {A} (in_channels out_channels kernel_size : nat) : M A layer :=
  fun w =>
    let '(weight, bias, g) := new_conv2d in_channels out_channels kernel_size (gen w) in
    ({| self := self w; gen := g; fs := fs w; stdout := stdout w |},
     Ok (Conv2d weight bias)).

Definition draw_orthogonal {A} (weight : tensor) : M A tensor :=
  fun w =>
    let '(weight', g) := orthogonal_ weight (gen w) in
    ({| self := self w; gen := g; fs := fs w; stdout := stdout w |}, Ok weight').

(** [init_weights(m)]: only a convolution or a linear layer is touched,
    and only its weight. *)
Definition init_weights {A} (m : layer) : M A layer :=
  match m with
  | Conv2d weight bias =>
      (weight' <- draw_orthogonal weight ;; ret (Conv2d weight' bias))%py
  | Linear weight bias =>
      (weight' <- draw_orthogonal weight ;; ret (Linear weight' bias))%py
  | ReLU => ret ReLU
  end.

(** [seq.apply(fn)] on an [nn.Sequential]: [fn] on each child in order (the
    container itself is no layer). *)
Fixpoint apply_layers {A} (fn : layer -> M A layer) (children : list layer)
  : M A (list layer) :=
  match children with
  | [] => ret []
  | m :: rest =>
      (m' <- fn m ;; rest' <- apply_layers fn rest ;; ret (m' :: rest'))%py
  end.

(** The parameters a layer registers under the attribute [name]. *)
Definition named_layer (name : string) (m : layer) : state_dict :=
  match m with
  | Conv2d weight bias | Linear weight bias =>
      [((name ++ ".weight")%string, weight); ((name ++ ".bias")%string, bias)]
  | ReLU => []
  end.

(** The parameters of an [nn.Sequential] registered under [name]: child
    [i] is the attribute [name.i]. *)
Fixpoint named_children (name : string) (i : nat) (children : list layer)
  : state_dict :=
  match children with
  | [] => []
  | m :: rest =>
      named_layer (name ++ "." ++ NilEmpty.string_of_uint (Nat.to_uint i))%string m
        ++ named_children name (S i) rest
  end.

Definition named_sequential (name : string) (children : list layer) : state_dict :=
  named_children name 0 children.

(** [Actor.__init__] *)
Definition Actor_init {A} (state_dim action_dim : nat) (max_action : R)
    (image_obs cnn : bool) : M A Actor.t :=
  let cnn_out := state_dim * 4 * 4 in
  let state_dim := if image_obs then state_dim ^ 2 else state_dim in
  (trunk <-
     (if image_obs && cnn then
        c0 <- nn_Conv2d 1 32 8 ;;
        c2 <- nn_Conv2d 32 64 4 ;;
        c4 <- nn_Conv2d 64 64 3 ;;
        f0 <- nn_Linear cnn_out 512 ;;
        f2 <- nn_Linear 512 256 ;;
        convs <- apply_layers init_weights [c0; ReLU; c2; ReLU; c4; ReLU] ;;
        ret (named_sequential "cnn" convs
               ++ named_sequential "fcn" [f0; ReLU; f2])
      else
        f0 <- nn_Linear state_dim 256 ;;
        ret (named_sequential "fcn" [f0; ReLU])) ;;
   l1 <- nn_Linear 256 256 ;;
   l2 <- nn_Linear 256 action_dim ;;
   ret {| Actor.image_obs := image_obs; Actor.cnn := cnn;
          Actor.cnn_out := cnn_out; Actor.max_action := max_action;
          Actor.params := trunk ++ named_layer "l1" l1 ++ named_layer "l2" l2 |})%py.

(** [Critic.__init__] *)
Definition Critic_init {A} (state_dim action_dim : nat) (image_obs cnn : bool)
  : M A Critic.t :=
  let cnn_out := state_dim * 4 * 4 in
  let state_dim := if image_obs then state_dim ^ 2 else state_dim in
  (trunk <-
     (if image_obs && cnn then
        c0 <- nn_Conv2d 1 32 8 ;;
        c2 <- nn_Conv2d 32 64 4 ;;
        c4 <- nn_Conv2d 64 64 3 ;;
        f10 <- nn_Linear (cnn_out + action_dim) 512 ;;
        f12 <- nn_Linear 512 256 ;;
        f20 <- nn_Linear (cnn_out + action_dim) 512 ;;
        f22 <- nn_Linear 512 256 ;;
        convs <- apply_layers init_weights [c0; ReLU; c2; ReLU; c4; ReLU] ;;
        ret (named_sequential "cnn" convs
               ++ named_sequential "fcn_1" [f10; ReLU; f12]
               ++ named_sequential "fcn_2" [f20; ReLU; f22])
      else
        f10 <- nn_Linear (state_dim + action_dim) 256 ;;
        f20 <- nn_Linear (state_dim + action_dim) 256 ;;
        ret (named_sequential "fcn_1" [f10; ReLU]
               ++ named_sequential "fcn_2" [f20; ReLU])) ;;
   l1 <- nn_Linear 256 256 ;;
   l2 <- nn_Linear 256 1 ;;
   l3 <- nn_Linear 256 256 ;;
   l4 <- nn_Linear 256 1 ;;
   ret {| Critic.image_obs := image_obs; Critic.cnn := cnn;
          Critic.cnn_out := cnn_out;
          Critic.params :=
            trunk ++ named_layer "l1" l1 ++ named_layer "l2" l2
              ++ named_layer "l3" l3 ++ named_layer "l4" l4 |})%py.

(** [VAE.__init__] *)
Definition VAE_init {A} (state_dim action_dim latent_dim : nat) (max_action : R)
  : M A VAE.t :=
  (e1 <- nn_Linear (state_dim + action_dim) 750 ;;
   e2 <- nn_Linear 750 750 ;;
   mean <- nn_Linear 750 latent_dim ;;
   log_std <- nn_Linear 750 latent_dim ;;
   d1 <- nn_Linear (state_dim + latent_dim) 750 ;;
   d2 <- nn_Linear 750 750 ;;
   d3 <- nn_Linear 750 action_dim ;;
   ret {| VAE.max_action := max_action; VAE.latent_dim := latent_dim;
          VAE.params :=
            named_layer "e1" e1 ++ named_layer "e2" e2
              ++ named_layer "mean" mean ++ named_layer "log_std" log_std
              ++ named_layer "d1" d1 ++ named_layer "d2" d2
              ++ named_layer "d3" d3 |})%py.

(** [TD3.__init__]; the targets are [copy.deepcopy] of the fresh networks. *)
Definition TD3_init {A} (state_dim action_dim : nat) (max_action : R)
    (image_obs : bool) (discount tau policy_noise noise_clip : R)
    (policy_freq : Z) (cnn : bool) : M A TD3.t :=
  (actor <- Actor_init state_dim action_dim max_action image_obs cnn ;;
   critic <- Critic_init state_dim action_dim image_obs cnn ;;
   ret {| TD3.actor := actor; TD3.actor_target := actor;
          TD3.actor_optimizer := Adam (Actor.params actor) 3e-4;
          TD3.critic := critic; TD3.critic_target := critic;
          TD3.critic_optimizer := Adam (Critic.params critic) 3e-4;
          TD3.max_action := max_action; TD3.image_obs := image_obs;
          TD3.cnn := cnn; TD3.discount := discount; TD3.tau := tau;
          TD3.policy_noise := policy_noise; TD3.noise_clip := noise_clip;
          TD3.policy_freq := policy_freq; TD3.total_it := 0 |})%py.

(** [BCQ.__init__]; [phi] is accepted and not used; the VAE's optimizer
    takes Adam's default learning rate. *)
Definition BCQ_init {A} (state_dim action_dim : nat) (max_action : R)
    (discount tau lmbda phi policy_noise noise_clip : R)
    (policy_freq : Z) (cnn image_obs : bool) : M A BCQ.t :=
  let latent_dim := action_dim * 2 in
  (actor <- Actor_init state_dim action_dim max_action image_obs cnn ;;
   critic <- Critic_init state_dim action_dim image_obs cnn ;;
   vae <- VAE_init state_dim action_dim latent_dim max_action ;;
   ret {| BCQ.actor := actor; BCQ.actor_target := actor;
          BCQ.actor_optimizer := Adam (Actor.params actor) 1e-3;
          BCQ.critic := critic; BCQ.critic_target := critic;
          BCQ.critic_optimizer := Adam (Critic.params critic) 1e-3;
          BCQ.vae := vae; BCQ.vae_optimizer := Adam (VAE.params vae) 1e-3;
          BCQ.max_action := max_action; BCQ.image_obs := image_obs;
          BCQ.cnn := cnn; BCQ.action_dim := action_dim;
          BCQ.discount := discount; BCQ.tau := tau; BCQ.lmbda := lmbda;
          BCQ.policy_noise := policy_noise; BCQ.noise_clip := noise_clip;
          BCQ.policy_freq := policy_freq; BCQ.total_it := 0 |})%py.

End Construction.

(** Initializers for concrete runs: constant tensors of the right sizes. *)
#[global] Instance toy_initializers : @Initializers Toy.framework := {|
  new_linear := fun i o g => (repeat (INR g) (o * i), repeat 0%R o, S g);
  new_conv2d := fun i o k g => (repeat (INR g) (o * i * k * k), repeat 0%R o, S g);
  orthogonal_ := fun weight g => (weight, S g);
  Adam := fun _ _ => 0
|}.

(** The initializers return tensors of the sizes the layers have in the
    framework: a linear weight holds [out_features * in_features] entries, a
    convolution weight [out * in * kernel * kernel], a bias one entry per
    output, and [orthogonal_] keeps the size of the weight it rewrites. *)
Definition sized_initializers `{Framework} `{!Initializers} : Prop :=
  (forall i o g,
     length (fst (fst (new_linear i o g))) = o * i
     /\ length (snd (fst (new_linear i o g))) = o)
  /\ (forall i o k g,
        length (fst (fst (new_conv2d i o k g))) = o * i * k * k
        /\ length (snd (fst (new_conv2d i o k g))) = o)
  /\ (forall t g, length (fst (orthogonal_ t g)) = length t).

(** The name and size of a layer's weight and bias. *)
Definition layer_shape (name : string) (weight_size bias_size : nat)
  : list (string * nat) :=
  [((name ++ ".weight")%string, weight_size); ((name ++ ".bias")%string, bias_size)].

(** The names and sizes of the parameters [Actor.__init__] registers. *)
Definition Actor_shapes (state_dim action_dim : nat) (image_obs cnn : bool)
  : list (string * nat) :=
  (if image_obs && cnn
   then layer_shape "cnn.0" (32 * 1 * 8 * 8) 32
          ++ layer_shape "cnn.2" (64 * 32 * 4 * 4) 64
          ++ layer_shape "cnn.4" (64 * 64 * 3 * 3) 64
          ++ layer_shape "fcn.0" (512 * (state_dim * 4 * 4)) 512
          ++ layer_shape "fcn.2" (256 * 512) 256
   else layer_shape "fcn.0"
          (256 * (if image_obs then state_dim ^ 2 else state_dim)) 256)
  ++ layer_shape "l1" (256 * 256) 256
  ++ layer_shape "l2" (action_dim * 256) action_dim.

(** The names and sizes of the parameters [Critic.__init__] registers. *)
Definition Critic_shapes (state_dim action_dim : nat) (image_obs cnn : bool)
  : list (string * nat) :=
  (if image_obs && cnn
   then layer_shape "cnn.0" (32 * 1 * 8 * 8) 32
          ++ layer_shape "cnn.2" (64 * 32 * 4 * 4) 64
          ++ layer_shape "cnn.4" (64 * 64 * 3 * 3) 64
          ++ layer_shape "fcn_1.0" (512 * (state_dim * 4 * 4 + action_dim)) 512
          ++ layer_shape "fcn_1.2" (256 * 512) 256
          ++ layer_shape "fcn_2.0" (512 * (state_dim * 4 * 4 + action_dim)) 512
          ++ layer_shape "fcn_2.2" (256 * 512) 256
   else layer_shape "fcn_1.0"
          (256 * ((if image_obs then state_dim ^ 2 else state_dim) + action_dim)) 256
          ++ layer_shape "fcn_2.0"
               (256 * ((if image_obs then state_dim ^ 2 else state_dim) + action_dim)) 256)
  ++ layer_shape "l1" (256 * 256) 256
  ++ layer_shape "l2" (1 * 256) 1
  ++ layer_shape "l3" (256 * 256) 256
  ++ layer_shape "l4" (1 * 256) 1.

(** The names and sizes of the parameters [VAE.__init__] registers. *)
Definition VAE_shapes (state_dim action_dim latent_dim : nat) : list (string * nat) :=
  layer_shape "e1" (750 * (state_dim + action_dim)) 750
  ++ layer_shape "e2" (750 * 750) 750
  ++ layer_shape "mean" (latent_dim * 750) latent_dim
  ++ layer_shape "log_std" (latent_dim * 750) latent_dim
  ++ layer_shape "d1" (750 * (state_dim + latent_dim)) 750
  ++ layer_shape "d2" (750 * 750) 750
  ++ layer_shape "d3" (action_dim * 750) action_dim.

(** The size a table of names and sizes gives for the name [k]. *)
Fixpoint size_in (table : list (string * nat)) (k : string) : nat :=
  match table with
  | [] => 0
  | (k', n) :: table' => if String.eqb k k' then n else size_in table' k
  end.

(** The number of entries of one observation, as the networks without the
    convolutional trunk take it. *)
Definition obs_width (state_dim : nat) (image_obs : bool) : nat :=
  if image_obs then state_dim ^ 2 else state_dim.

(** Every row of the batch has [n] entries. *)
Definition rows_of (n : nat) (b : batch) : Prop :=
  Forall (fun row => length row = n) b.

(** Networks with the names and sizes of a table, every entry [1]; and an
    agent over observations of three entries and actions of two. *)
Definition filled (table : list (string * nat)) : state_dict :=
  List.map (fun kn => (fst kn, repeat 1%R (snd kn))) table.

Module Sized.

Definition actor : Actor.t :=
  {| Actor.image_obs := false; Actor.cnn := false; Actor.cnn_out := 3 * 4 * 4;
     Actor.max_action := 1;
     Actor.params := filled (Actor_shapes 3 2 false false) |}.

Definition critic : Critic.t :=
  {| Critic.image_obs := false; Critic.cnn := false; Critic.cnn_out := 3 * 4 * 4;
     Critic.params := filled (Critic_shapes 3 2 false false) |}.

Definition td3 : TD3.t :=
  TD3.set_actor_target
    (TD3.set_critic_target
       (TD3.set_critic (TD3.set_actor Toy.td3 actor 0%nat) critic 0%nat)
       critic)
    actor.

End Sized.

(** ** The forward passes in float32

    The bound on an action is a statement about float32 numbers, which
    round, overflow to an infinity and have a NaN.  This module embeds the
    three functions the bound is about, [Actor.forward], [TD3.select_action]
    and [VAE.decode], a second time: over IEEE 754 binary32 ([SpecFloat]
    with 24 bits of precision and [emax = 128], rounding to nearest, ties to
    even), and with the framework's errors on tensors of the wrong shape. *)

Module F32.

Definition float : Type := spec_float.
Definition tensor : Type := list float.
Definition batch : Type := list tensor.
Definition state_dict : Type := list (string * tensor).

Definition prec : Z := 24.
Definition emax : Z := 128.


Definition add : float -> float -> float := SFadd prec emax.
Definition mul : float -> float -> float := SFmul prec emax.
Definition opp : float -> float := SFopp.
Definition ltb : float -> float -> bool := SFltb.

Definition nan : float := S754_nan.
Definition zero : float := S754_zero false.
(** [1.0], [0.5] and [-0.5]. *)
Definition one : float := S754_finite false 8388608 (-23).
Definition half : float := S754_finite false 8388608 (-24).
Definition minus_half : float := S754_finite true 8388608 (-24).

Definition is_nan (x : float) : bool :=
  match x with S754_nan => true | _ => false end.





(** Results of operations that may raise. *)
Definition bind {A B} (r : result A) (f : A -> result B) : result B :=
  match r with
  | Ok a => f a
  | Raise e => Raise e
  end.

Declare Scope f32_scope.
Delimit Scope f32_scope with f32.
Notation "x <- c1 ;; c2" := (bind c1 (fun x => c2))
  (at level 100, c1 at next level, right associativity) : f32_scope.

Fixpoint each {A B} (f : A -> result B) (xs : list A) : result (list B) :=
  match xs with
  | [] => Ok []
  | x :: xs' =>
      (y <- f x ;;
       ys <- each f xs' ;;
       Ok (y :: ys))%f32
  end.

Definition map2 {A B C} (f : A -> B -> C) (xs : list A) (ys : list B) : list C :=
  List.map (fun p => f (fst p) (snd p)) (combine xs ys).

(** [F.relu]: [0] for a negative entry; a NaN stays a NaN. *)
Definition relu1 (x : float) : float := if ltb x zero then zero else x.
Definition relu (t : tensor) : tensor := List.map relu1 t.

(** [x.clamp(lo, hi)]; a NaN stays a NaN. *)
Definition clamp1 (lo hi x : float) : float :=
  if is_nan x then x
  else if ltb x lo then lo
  else if ltb hi x then hi
  else x.
Definition bclamp (lo hi : float) (t : batch) : batch :=
  List.map (List.map (clamp1 lo hi)) t.

(** The sum of the products, accumulated from the left.  The framework
    chooses the order of the additions; no statement below depends on
    it. *)
Definition dot (a b : tensor) : float :=
  fold_left (fun acc p => add acc (mul (fst p) (snd p))) (combine a b) zero.

(** [nn.Linear] on one row: [weight] is stored row-major with one row of
    [in_features] entries per entry of [bias]; a row [x] of another width
    raises. *)
Definition linear1 (weight bias x : tensor) : result tensor :=
  if (length weight =? length bias * length x)%nat
  then Ok (map2 add
             (List.map
                (fun i => dot (firstn (length x) (skipn (i * length x) weight)) x)
                (seq 0 (length bias)))
             bias)
  else Raise RuntimeError.

Definition linear (weight bias : tensor) (xs : batch) : result batch :=
  each (linear1 weight bias) xs.

(** [torch.cat([a, b], 1)]: the batches must have the same number of
    rows. *)
Definition cat1 (a b : batch) : result batch :=
  if (length a =? length b)%nat then Ok (map2 (@app float) a b)
  else Raise RuntimeError.

Fixpoint chunks (fuel n : nat) (flat : tensor) : batch :=
  match fuel with
  | O => []
  | S fuel' =>
      match flat with
      | [] => []
      | _ => firstn n flat :: chunks fuel' n (skipn n flat)
      end
  end.

(** [t.view(-1, n)]: the number of entries must be a multiple of [n]. *)
Definition view_cols (n : nat) (t : batch) : result batch :=
  let flat := concat t in
  match n with
  | O => Raise RuntimeError
  | _ => if (length flat mod n =? 0)%nat
         then Ok (chunks (length flat) n flat)
         else Raise RuntimeError
  end.

Fixpoint get (sd : state_dict) (k : string) : option tensor :=
  match sd with
  | [] => None
  | (k', t) :: sd' => if String.eqb k k' then Some t else get sd' k
  end.

Definition param (sd : state_dict) (k : string) : tensor :=
  match get sd k with Some t => t | None => [] end.

Definition shapes (sd : state_dict) : list (string * nat) :=
  List.map (fun kv => (fst kv, length (snd kv))) sd.

(** What the framework supplies. *)
Class Primitives : Type := {
  rng : Type;
  (** [torch.tanh] of a float32 that is not a NaN *)
  tanh_num : float -> float;
  (** [nn.Conv2d(in, out, kernel, stride, padding)] applied with the given
      weight and bias; it raises on an input it cannot take *)
  conv2d : nat -> nat -> nat -> nat -> nat -> tensor -> tensor -> batch -> result batch;
  (** [torch.randn((rows, cols))] *)
  randn : nat -> nat -> rng -> batch * rng
}.


Section Forward.
Context `{Primitives}.

(** [torch.tanh]: the tanh of a NaN is a NaN. *)
Definition tanh (x : float) : float :=
  if is_nan x then nan else tanh_num x.

(** [max_action * torch.tanh(t)]. *)
Definition scaled_tanh (max_action : float) (t : batch) : batch :=
  List.map (List.map (fun x => mul max_action (tanh x))) t.

End Forward.

Module Actor.

(** [max_action] is the float32 the multiplication by a float32 tensor
    takes the Python number as. *)
Record t : Type := {
  image_obs : bool;
  cnn : bool;
  cnn_out : nat;
  max_action : float;
  params : state_dict
}.

Section Forward.
Context `{Primitives}.

Definition cnn_forward (p : state_dict) (x : batch) : result batch :=
  (x <- conv2d 1 32 8 4 0 (param p "cnn.0.weight") (param p "cnn.0.bias") x ;;
   x <- conv2d 32 64 4 2 0 (param p "cnn.2.weight") (param p "cnn.2.bias")
          (List.map relu x) ;;
   x <- conv2d 64 64 3 1 0 (param p "cnn.4.weight") (param p "cnn.4.bias")
          (List.map relu x) ;;
   Ok (List.map relu x))%f32.

Definition fcn (a : t) (x : batch) : result batch :=
  let p := params a in
  if image_obs a && cnn a
  then (x <- linear (param p "fcn.0.weight") (param p "fcn.0.bias") x ;;
        linear (param p "fcn.2.weight") (param p "fcn.2.bias") (List.map relu x))%f32
  else (x <- linear (param p "fcn.0.weight") (param p "fcn.0.bias") x ;;
        Ok (List.map relu x))%f32.

Definition forward (a : t) (state : batch) : result batch :=
  let p := params a in
  (state <- (if image_obs a && cnn a
             then (x <- cnn_forward p state ;; view_cols (cnn_out a) x)
             else Ok state) ;;
   state <- fcn a state ;;
   h <- linear (param p "l1.weight") (param p "l1.bias") state ;;
   out <- linear (param p "l2.weight") (param p "l2.bias") (List.map relu h) ;;
   Ok (scaled_tanh (max_action a) out))%f32.

End Forward.
End Actor.

Module TD3.

(** The fields of the agent [select_action] reads. *)
Record t : Type := {
  image_obs : bool;
  cnn : bool;
  actor : Actor.t
}.

Section Agent.
Context `{Primitives}.

(** [state.reshape(1, 1, 64, 64)] raises unless the observation has
    [64 * 64] entries; [state.reshape(1, -1)] takes any observation. *)
Definition select_action (a : t) (state : batch) : result tensor :=
  (state <- (if image_obs a && cnn a
             then if (length (concat state) =? 1 * 1 * 64 * 64)%nat
                  then Ok [concat state]
                  else Raise ValueError
             else Ok [concat state]) ;;
   out <- Actor.forward (actor a) state ;;
   Ok (concat out))%f32.

End Agent.
End TD3.

Module VAE.

Record t : Type := {
  max_action : float;
  latent_dim : nat;
  params : state_dict
}.

Section Forward.
Context `{Primitives}.

(** The body of [decode] once [z] is known. *)
Definition decode_z (v : t) (state z : batch) : result batch :=
  let p := params v in
  (sz <- cat1 state z ;;
   a <- linear (param p "d1.weight") (param p "d1.bias") sz ;;
   a <- linear (param p "d2.weight") (param p "d2.bias") (List.map relu a) ;;
   out <- linear (param p "d3.weight") (param p "d3.bias") (List.map relu a) ;;
   Ok (scaled_tanh (max_action v) out))%f32.

(** [decode(state, z=None)] from the generator state [g]: without [z] the
    latent vector is drawn and clipped to [-0.5, 0.5]. *)
Definition decode (v : t) (state : batch) (z : option batch) (g : rng)
    : result batch * rng :=
  let '(z, g) :=
    match z with
    | Some z => (z, g)
    | None =>
        let '(e, g') := randn (length state) (latent_dim v) g in
        (bclamp minus_half half e, g')
    end in
  (decode_z v state z, g).

End Forward.
End VAE.

End F32.



(** ** A small instance of the float32 primitives, and an actor that
    overflows *)

Module Toy32.

(** [tanh] replaced by the sign, the two values [tanh] saturates to. *)
#[global] Instance primitives : F32.Primitives := {|
  F32.rng := nat;
  F32.tanh_num := fun x =>
    if F32.ltb x F32.zero then F32.opp F32.one
    else if F32.ltb F32.zero x then F32.one
    else F32.zero;
  F32.conv2d := fun _ _ _ _ _ _ _ x => Ok x;
  F32.randn := fun rows cols g => (repeat (repeat F32.one cols) rows, S g)
|}.


(** An [Actor(state_dim=1, action_dim=1, max_action=1.0, image_obs=False,
    cnn=False)] whose weights are [1.0], but for one [-1.0] in the last
    layer, and whose biases are [0.0]. *)
Definition actor : F32.Actor.t :=
  {| F32.Actor.image_obs := false;
     F32.Actor.cnn := false;
     F32.Actor.cnn_out := 1 * 4 * 4;
     F32.Actor.max_action := F32.one;
     F32.Actor.params :=
       [("fcn.0.weight", repeat F32.one (256 * 1));
        ("fcn.0.bias", repeat F32.zero 256);
        ("l1.weight", repeat F32.one (256 * 256));
        ("l1.bias", repeat F32.zero 256);
        ("l2.weight", F32.one :: F32.opp F32.one :: repeat F32.one 254);
        ("l2.bias", [F32.zero])] |}.

Definition td3 : F32.TD3.t :=
  {| F32.TD3.image_obs := false; F32.TD3.cnn := false; F32.TD3.actor := actor |}.

(** A decoder of narrow layers: one state entry and two latent entries in,
    one action entry out.  Its first layer is positive on the state [1.0]
    with the latent entries clipped to [0.5], and negative with latent
    entries of [1.0]. *)
Definition vae : F32.VAE.t :=
  {| F32.VAE.max_action := F32.one;
     F32.VAE.latent_dim := 2;
     F32.VAE.params :=
       [("d1.weight",
         [F32.one; F32.opp F32.one; F32.minus_half;
          F32.one; F32.opp F32.one; F32.minus_half]);
        ("d1.bias", repeat F32.zero 2);
        ("d2.weight", repeat F32.one (2 * 2)); ("d2.bias", repeat F32.zero 2);
        ("d3.weight", [F32.minus_half; F32.minus_half]);
        ("d3.bias", [F32.zero])] |}.

End Toy32.

(** * Properties *)

(** ** Lists and entries *)

Section ListFacts.
Context {A B C : Type}.

Lemma nth_error_map2 (f : A -> B -> C) xs ys i :
  nth_error (map2 f xs ys) i =
  match nth_error xs i, nth_error ys i with
  | Some x, Some y => Some (f x y)
  | _, _ => None
  end.
Proof.
  unfold map2. revert ys i.
  induction xs as [|x xs IH]; intros [|y ys] [|i]; simpl; try reflexivity.
  - destruct (nth_error xs i); reflexivity.
  - apply IH.
Qed.

Lemma Forall_map_intro (P : B -> Prop) (f : A -> B) (l : list A) :
  (forall x, P (f x)) -> Forall P (List.map f l).
Proof.
  intros Hf. induction l as [|x l IH]; simpl; constructor; auto.
Qed.

End ListFacts.

Lemma entry_map2 (f : R -> R -> R) (a b : batch) i j :
  entry (map2 (map2 f) a b) i j =
  match entry a i j, entry b i j with
  | Some x, Some y => Some (f x y)
  | _, _ => None
  end.
Proof.
  unfold entry, batch, tensor in *. rewrite nth_error_map2.
  destruct (nth_error a i) as [ra|], (nth_error b i) as [rb|]; try reflexivity.
  - apply nth_error_map2.
  - destruct (nth_error ra j); reflexivity.
Qed.

Lemma entry_map (f : R -> R) (a : batch) i j :
  entry (List.map (List.map f) a) i j =
  match entry a i j with Some x => Some (f x) | None => None end.
Proof.
  unfold entry, batch, tensor in *. rewrite nth_error_map.
  destruct (nth_error a i) as [ra|]; simpl; [|reflexivity].
  rewrite nth_error_map. destruct (nth_error ra j); reflexivity.
Qed.

(** ** Rounding in float32 *)

Section Rounding.
Local Open Scope Z_scope.
















End Rounding.

(** ** The action bound in float32 *)



Section ActionBound32.
Context `{F32.Primitives}.






End ActionBound32.





(** ** [TD3.train] *)

Section TD3Train.
Context `{Framework}.

Lemma TD3_step_critic_frame (a : TD3.t) loss :
  let a' := TD3.step_critic a loss in
  (Critic.params (TD3.critic a'), TD3.critic_optimizer a')
    = optim_step (TD3.critic_optimizer a) loss (Critic.params (TD3.critic a))
  /\ TD3.actor a' = TD3.actor a
  /\ TD3.actor_optimizer a' = TD3.actor_optimizer a
  /\ TD3.actor_target a' = TD3.actor_target a
  /\ TD3.critic_target a' = TD3.critic_target a
  /\ TD3.policy_freq a' = TD3.policy_freq a
  /\ TD3.total_it a' = TD3.total_it a
  /\ TD3.tau a' = TD3.tau a.
Proof.
  unfold TD3.step_critic.
  destruct (optim_step _ _ _) as [theta o]. simpl. repeat split.
Qed.

Lemma TD3_step_actor_frame (a : TD3.t) loss :
  let a' := TD3.step_actor a loss in
  (Actor.params (TD3.actor a'), TD3.actor_optimizer a')
    = optim_step (TD3.actor_optimizer a) loss (Actor.params (TD3.actor a))
  /\ TD3.critic a' = TD3.critic a
  /\ TD3.critic_optimizer a' = TD3.critic_optimizer a
  /\ TD3.actor_target a' = TD3.actor_target a
  /\ TD3.critic_target a' = TD3.critic_target a
  /\ TD3.total_it a' = TD3.total_it a
  /\ TD3.tau a' = TD3.tau a.
Proof.
  unfold TD3.step_actor.
  destruct (optim_step _ _ _) as [phi o]. simpl. repeat split.
Qed.

(** The Polyak step of [soft_update], position by position. *)
Lemma polyak_tensor (tau : R) (p tp : tensor) :
  tadd (tscale tau p) (tscale (1 - tau) tp) = map2 (spec_polyak tau) p tp.
Proof.
  unfold tadd, tscale, map2. revert tp.
  induction p as [|x p IH]; intros [|y tp]; simpl; try reflexivity.
  f_equal. apply IH.
Qed.

Lemma soft_update_at (tau : R) (online target : state_dict) (i : nat) :
  nth_error (soft_update tau online target) i
  = spec_polyak_at tau (nth_error online i) (nth_error target i).
Proof.
  revert target i.
  induction online as [|[k' p] online IH]; intros target i.
  - simpl. rewrite nth_error_nil.
    destruct (nth_error target i) as [[k tp]|]; reflexivity.
  - destruct target as [|[k tp] target].
    + simpl. rewrite nth_error_nil. reflexivity.
    + destruct i as [|i]; simpl.
      * rewrite polyak_tensor. reflexivity.
      * apply IH.
Qed.

(** [train] unfolded: the counter, the draws, the critic step, then the
    test on the counter. *)
Lemma TD3_train_run rb bs (w : world TD3.t) :
  let a0 := TD3.set_total_it (self w) (TD3.total_it (self w) + 1) in
  let '(tr, eps, g) := TD3.drawn rb bs w in
  let state := TD3.as_images a0 (tr_state tr) in
  let target :=
    TD3.target_Q a0 (TD3.as_images a0 (tr_next_state tr))
      (tr_reward tr) (tr_not_done tr) eps in
  let a1 := TD3.step_critic a0 (TD3.critic_loss a0 state (tr_action tr) target) in
  let out a := {| self := a; gen := g; fs := fs w; stdout := stdout w |} in
  TD3.train rb bs w =
    if (TD3.policy_freq a1 =? 0)%Z then (out a1, Raise ZeroDivisionError)
    else if (TD3.total_it a1 mod TD3.policy_freq a1 =? 0)%Z
         then (out (TD3_delayed a1 state), Ok tt)
         else (out a1, Ok tt).
Proof.
  unfold TD3.drawn, TD3.train, bind, modify, draw_sample, draw_randn_like,
    draw_randn, get_self, raise, ret. simpl.
  destruct (sample rb bs (gen w)) as [tr g1]. simpl.
  destruct (randn _ _ g1) as [eps g2]. simpl.
  destruct (TD3.policy_freq _ =? 0)%Z; [reflexivity|].
  destruct (_ mod _ =? 0)%Z; reflexivity.
Qed.

End TD3Train.

Lemma multiple_test (it pf : Z) :
  (0 < it)%Z ->
  ((pf | it)%Z <-> ((pf =? 0)%Z = false /\ (it mod pf =? 0)%Z = true)).
Proof.
  intros Hit. split.
  - intros Hdiv. assert (Hpf : pf <> 0%Z).
    { intros ->. apply Z.divide_0_l in Hdiv. lia. }
    split; [apply Z.eqb_neq, Hpf|].
    apply Z.eqb_eq, Z.mod_divide; assumption.
  - intros [Hpf Hmod]. apply Z.eqb_neq in Hpf. apply Z.eqb_eq in Hmod.
    apply Z.mod_divide; assumption.
Qed.

(** C1. A call of [TD3.train] from a counter that is not negative
    increments the counter and always steps the critic with its optimizer.
    When the incremented counter is a multiple of [policy_freq], the call
    returns, the actor is stepped with its optimizer on the loss
    [-Q1(state, actor(state)).mean()] of the critic just stepped, and every
    parameter of each target network becomes, entry by entry,
    [tau * param + (1 - tau) * target_param] with the parameter of the
    freshly stepped online network at the same position.  Otherwise the
    actor, its optimizer state, the actor target and the critic target are
    exactly what they were before the call. *)
Theorem delayed_policy_updates `{Framework} rb bs (w : world TD3.t) :
  (0 <= TD3.total_it (self w))%Z ->
  let a := self w in
  let a' := self (fst (TD3.train rb bs w)) in
  let it := (TD3.total_it a + 1)%Z in
  let state := TD3.as_images a (tr_state (fst (fst (TD3.drawn rb bs w)))) in
  TD3.total_it a' = it
  /\ (Critic.params (TD3.critic a'), TD3.critic_optimizer a')
       = optim_step (TD3.critic_optimizer a) (TD3.train_critic_loss rb bs w)
           (Critic.params (TD3.critic a))
  /\ ((TD3.policy_freq a | it)%Z ->
        snd (TD3.train rb bs w) = Ok tt
        /\ (Actor.params (TD3.actor a'), TD3.actor_optimizer a')
             = optim_step (TD3.actor_optimizer a)
                 (TD3.actor_loss (TD3_critic_stepped rb bs w) state)
                 (Actor.params (TD3.actor a))
        /\ (forall i,
              nth_error (Critic.params (TD3.critic_target a')) i
              = spec_polyak_at (TD3.tau a)
                  (nth_error (Critic.params (TD3.critic a')) i)
                  (nth_error (Critic.params (TD3.critic_target a)) i))
        /\ (forall i,
              nth_error (Actor.params (TD3.actor_target a')) i
              = spec_polyak_at (TD3.tau a)
                  (nth_error (Actor.params (TD3.actor a')) i)
                  (nth_error (Actor.params (TD3.actor_target a)) i)))
  /\ (~ (TD3.policy_freq a | it)%Z ->
        TD3.actor a' = TD3.actor a
        /\ TD3.actor_optimizer a' = TD3.actor_optimizer a
        /\ TD3.actor_target a' = TD3.actor_target a
        /\ TD3.critic_target a' = TD3.critic_target a).
Proof.
  intros Hit a a' it state.
  assert (Hpos : (0 < it)%Z) by (unfold it, a; lia).
  pose proof (multiple_test it (TD3.policy_freq a) Hpos) as Htest.
  pose proof (TD3_train_run rb bs w) as Hrun.
  unfold TD3_critic_stepped, TD3.train_critic_loss, TD3.train_target.
  unfold state. clear state.
  destruct (TD3.drawn rb bs w) as [[tr eps] g]. cbv zeta in Hrun.
  cbn [fst snd].
  set (a0 := TD3.set_total_it (self w) (TD3.total_it (self w) + 1)) in *.
  set (state := TD3.as_images a0 (tr_state tr)) in *.
  change (TD3.as_images a (tr_state tr)) with state.
  set (loss := TD3.critic_loss a0 state (tr_action tr) _) in Hrun.
  change (TD3.critic_loss (self w) (TD3.as_images (self w) (tr_state tr))
            (tr_action tr)
            (TD3.target_Q (self w) (TD3.as_images (self w) (tr_next_state tr))
               (tr_reward tr) (tr_not_done tr) eps)) with loss.
  pose proof (TD3_step_critic_frame a0 loss) as Hc. cbv zeta in Hc.
  set (a1 := TD3.step_critic a0 loss) in *.
  destruct Hc as (Hcp & Hca & Hcao & Hcat & Hcct & Hcpf & Hcit & Hctau).
  change (TD3.policy_freq a0) with (TD3.policy_freq a) in Hcpf.
  change (TD3.total_it a0) with it in Hcit.
  rewrite Hcpf, Hcit in Hrun.
  destruct (TD3.policy_freq a =? 0)%Z eqn:Hpf.
  - (* the modulo raises after the critic step *)
    unfold a'. rewrite Hrun. simpl.
    split; [exact Hcit|]. split; [exact Hcp|]. split.
    + intros Hdiv. apply Htest in Hdiv. destruct Hdiv; discriminate.
    + intros _. auto.
  - destruct (it mod TD3.policy_freq a =? 0)%Z eqn:Hmod.
    + unfold a'. rewrite Hrun. simpl.
      pose proof (TD3_step_actor_frame a1 (TD3.actor_loss a1 state)) as Ha.
      cbv zeta in Ha.
      destruct Ha as (Hap & Hac & Haco & Haat & Hact & Hait & Hatau).
      unfold TD3_delayed. simpl.
      rewrite Hac, Haco, Hait, Hatau, Hctau, Haat, Hact, Hcat, Hcct.
      split; [exact Hcit|]. split; [exact Hcp|]. split.
      * intros _. split; [reflexivity|]. split.
        -- rewrite Hap, Hca, Hcao. reflexivity.
        -- split; intros i; apply soft_update_at.
      * intros Hn. exfalso. apply Hn, Htest. auto.
    + unfold a'. rewrite Hrun. simpl.
      split; [exact Hcit|]. split; [exact Hcp|]. split.
      * intros Hdiv. apply Htest in Hdiv. destruct Hdiv as [_ Hd].
        discriminate.
      * intros _. auto.
Qed.

(** A delayed call on the toy agent: the counter goes from 1 to 2 with
    [policy_freq = 2]; the actor's optimizer has stepped, and the first
    parameter of the critic target has moved from 2 towards the stepped
    critic's value. *)
Lemma delayed_policy_updates_witness :
  let a' :=
    self (fst (TD3.train [Toy.batch0; Toy.batch0] 100
                 (Toy.boot (TD3.set_total_it Toy.td3 1)))) in
  TD3.total_it a' = 2%Z
  /\ TD3.actor_optimizer a' = 1%nat
  /\ nth_error (Critic.params (TD3.critic_target a')) 0
     = Some ("fcn_1.0.weight", [spec_polyak 0.005 (1 / 2 * 2) 2])
  /\ nth_error (Critic.params (TD3.critic_target a')) 0
     <> nth_error (Critic.params Toy.critic0) 0.
Proof.
  intros a'.
  assert (H0 : (0 <= TD3.total_it (self (Toy.boot (TD3.set_total_it Toy.td3 1))))%Z)
    by (simpl; lia).
  destruct (@delayed_policy_updates Toy.framework [Toy.batch0; Toy.batch0] 100
              (Toy.boot (TD3.set_total_it Toy.td3 1)) H0)
    as (Hit & Hcritic & Hdelayed & _).
  assert (Hdiv : (2 | 1 + 1)%Z) by (exists 1%Z; reflexivity).
  destruct (Hdelayed Hdiv) as (_ & Hactor & Htarget & _).
  fold a' in Hit, Hcritic, Hactor, Htarget.
  assert (Hfirst : nth_error (Critic.params (TD3.critic_target a')) 0
                   = Some ("fcn_1.0.weight", [spec_polyak 0.005 (1 / 2 * 2) 2])).
  { rewrite (Htarget 0%nat).
    apply (f_equal fst) in Hcritic. cbn [fst] in Hcritic. rewrite Hcritic.
    reflexivity. }
  split; [exact Hit|]. split.
  - apply (f_equal snd) in Hactor. exact Hactor.
  - split; [exact Hfirst|]. rewrite Hfirst.
    intros Heq. inversion Heq as [Hv]. unfold spec_polyak in Hv. lra.
Defined.

(** C2. In every call of [TD3.train] the smoothed next action is, entry by
    entry, the target actor's output on the next state plus the scaled and
    clamped Gaussian draw, clamped to the action range; the target is, entry
    by entry, [reward + not_done * discount * min(target_Q1, target_Q2)] on
    the target critic's two values at that action; the critic loss is the
    sum of the two mean squared errors of the current estimates against this
    one target; and the critic is stepped on that loss. *)
Theorem double_q_learning_target `{Framework} rb bs (w : world TD3.t) :
  let a := self w in
  let a' := self (fst (TD3.train rb bs w)) in
  let tr := fst (fst (TD3.drawn rb bs w)) in
  let eps := snd (fst (TD3.drawn rb bs w)) in
  let state := TD3.as_images a (tr_state tr) in
  let next_state := TD3.as_images a (tr_next_state tr) in
  let next_action := TD3.target_action a next_state eps in
  let target_Qs := Critic.forward (TD3.critic_target a) next_state next_action in
  let target := TD3.train_target rb bs w in
  (forall i j,
     entry next_action i j =
     match entry (Actor.forward (TD3.actor_target a) next_state) i j,
           entry eps i j with
     | Some p, Some e =>
         Some (spec_td3_next_action (TD3.max_action a) (TD3.policy_noise a)
                 (TD3.noise_clip a) p e)
     | _, _ => None
     end)
  /\ (forall i j,
        entry target i j =
        match entry (tr_reward tr) i j, entry (tr_not_done tr) i j,
              entry (fst target_Qs) i j, entry (snd target_Qs) i j with
        | Some r, Some nd, Some q1, Some q2 =>
            Some (spec_td3_target (TD3.discount a) r nd q1 q2)
        | _, _, _, _ => None
        end)
  /\ (forall theta,
        TD3.train_critic_loss rb bs w theta =
        let current_Qs :=
          Critic.forward (Critic.with_params (TD3.critic a) theta) state (tr_action tr) in
        (mse_loss (fst current_Qs) target + mse_loss (snd current_Qs) target)%R)
  /\ (Critic.params (TD3.critic a'), TD3.critic_optimizer a')
       = optim_step (TD3.critic_optimizer a) (TD3.train_critic_loss rb bs w)
           (Critic.params (TD3.critic a)).
Proof.
  intros a a' tr eps state next_state next_action target_Qs target.
  split; [|split; [|split]].
  - intros i j. unfold next_action, TD3.target_action, TD3.target_noise,
      bclamp, clamp, badd, tadd, bmuls.
    rewrite entry_map, entry_map2, entry_map, entry_map.
    unfold spec_td3_next_action.
    destruct (entry (Actor.forward _ _) i j), (entry eps i j); reflexivity.
  - intros i j. unfold target, TD3.train_target.
    unfold target_Qs, next_action, next_state, tr, eps, a.
    destruct (TD3.drawn rb bs w) as [[tr0 eps0] g]. cbn [fst snd].
    unfold TD3.target_Q, badd, tadd, bmul, tmul, bmin, tmin, bmuls.
    destruct (Critic.forward _ _ _) as [q1 q2]. cbn [fst snd].
    rewrite entry_map2, entry_map2, entry_map, entry_map2.
    unfold spec_td3_target.
    destruct (entry (tr_reward tr0) i j), (entry (tr_not_done tr0) i j),
      (entry q1 i j), (entry q2 i j); reflexivity.
  - intros theta. unfold TD3.train_critic_loss, target, state, tr, a.
    destruct (TD3.drawn rb bs w) as [[tr0 eps0] g]. cbn [fst snd].
    unfold TD3.critic_loss.
    destruct (Critic.forward _ _ _) as [q1 q2]. reflexivity.
  - pose proof (TD3_train_run rb bs w) as Hrun.
    unfold TD3.train_critic_loss, TD3.train_target.
    destruct (TD3.drawn rb bs w) as [[tr0 eps0] g]. cbv zeta in Hrun.
    set (a0 := TD3.set_total_it (self w) (TD3.total_it (self w) + 1)) in *.
    set (loss := TD3.critic_loss a0 _ _ _) in Hrun.
    pose proof (TD3_step_critic_frame a0 loss) as Hc. cbv zeta in Hc.
    destruct Hc as (Hcp & _).
    unfold a'. rewrite Hrun.
    destruct (_ =? 0)%Z; [exact Hcp|].
    destruct (_ =? 0)%Z; [|exact Hcp].
    simpl.
    pose proof (TD3_step_actor_frame (TD3.step_critic a0 loss)
                  (TD3.actor_loss (TD3.step_critic a0 loss)
                     (TD3.as_images a0 (tr_state tr0)))) as Ha.
    cbv zeta in Ha. destruct Ha as (_ & Hac & Haco & _).
    unfold TD3_delayed. simpl. rewrite Hac, Haco. exact Hcp.
Qed.

(** ** The soft update of the target networks *)

Lemma soft_update_keys (tau : R) (online target : state_dict) :
  keys (soft_update tau online target) = keys target.
Proof.
  revert target.
  induction online as [|[k' p] online IH]; intros [|[k tp] target]; simpl;
    try reflexivity.
  f_equal. apply IH.
Qed.

(** ** [BCQ.select_action] and [BCQ.train] *)

Section BCQRuns.
Context `{Framework}.

Lemma BCQ_call_actor_raises (act : Actor.t) (state action : batch) :
  BCQ.call_actor act state action = Raise TypeError.
Proof. reflexivity. Qed.

Lemma BCQ_train_iteration_run rb bs (w : world BCQ.t) :
  exists g,
    BCQ.train_iteration rb bs w =
      ({| self := BCQ.step_vae (self w) (BCQ_first_vae_loss rb bs w);
          gen := g; fs := fs w; stdout := stdout w |}, Raise TypeError).
Proof.
  unfold BCQ_first_vae_loss, BCQ.train_iteration, VAE.forward, VAE.decode,
    bind, modify, lift, draw_sample, draw_randn_like, draw_randn, get_self, ret.
  simpl.
  destruct (sample rb bs (gen w)) as [tr g1]. simpl.
  destruct (randn _ _ g1) as [eps g2]. simpl.
  destruct (randn _ _ g2) as [z g3]. simpl.
  exists g3. reflexivity.
Qed.

Lemma for_range_raises {A} (body : M A unit) (n : nat) (w w' : world A) e :
  body w = (w', Raise e) -> for_range (S n) body w = (w', Raise e).
Proof. intros Hb. simpl. unfold bind. rewrite Hb. reflexivity. Qed.

(** With at least one iteration asked for, [train] is its first iteration,
    which stops at the call of the target actor. *)
Lemma BCQ_train_run rb (p : positive) bs (w : world BCQ.t) :
  exists g,
    BCQ.train rb (Z.pos p) bs w =
      ({| self := BCQ.step_vae (self w) (BCQ_first_vae_loss rb bs w);
          gen := g; fs := fs w; stdout := stdout w |}, Raise TypeError).
Proof.
  destruct (BCQ_train_iteration_run rb bs w) as [g Hg].
  exists g. unfold BCQ.train.
  destruct (Pos2Nat.is_succ p) as [n Hn]. rewrite Z2Nat.inj_pos, Hn.
  apply for_range_raises, Hg.
Qed.

Lemma BCQ_step_vae_frame (a : BCQ.t) loss :
  let a' := BCQ.step_vae a loss in
  (VAE.params (BCQ.vae a'), BCQ.vae_optimizer a')
    = optim_step (BCQ.vae_optimizer a) loss (VAE.params (BCQ.vae a))
  /\ BCQ.actor a' = BCQ.actor a
  /\ BCQ.actor_optimizer a' = BCQ.actor_optimizer a
  /\ BCQ.actor_target a' = BCQ.actor_target a
  /\ BCQ.critic a' = BCQ.critic a
  /\ BCQ.critic_optimizer a' = BCQ.critic_optimizer a
  /\ BCQ.critic_target a' = BCQ.critic_target a.
Proof.
  unfold BCQ.step_vae.
  destruct (optim_step _ _ _) as [theta o]. simpl. repeat split.
Qed.

Lemma BCQ_select_action_run (state : batch) (w : world BCQ.t) :
  exists g,
    BCQ.select_action state w =
      ({| self := self w; gen := g; fs := fs w; stdout := stdout w |},
       Raise TypeError).
Proof.
  unfold BCQ.select_action, VAE.decode, bind, lift, draw_randn, get_self, ret.
  simpl.
  destruct (randn _ _ (gen w)) as [z g]. simpl.
  exists g. reflexivity.
Qed.

End BCQRuns.

Lemma BCQ_train_is_first_iteration `{Framework} rb (p : positive) bs
    (w : world BCQ.t) :
  BCQ.train rb (Z.pos p) bs w = BCQ.train_iteration rb bs w.
Proof.
  destruct (BCQ_train_iteration_run rb bs w) as [g Hg]. rewrite Hg.
  unfold BCQ.train.
  destruct (Pos2Nat.is_succ p) as [n Hn]. rewrite Z2Nat.inj_pos, Hn.
  apply for_range_raises, Hg.
Qed.

Lemma Critic_has_no_q1 `{Framework} (c : Critic.t) :
  Critic.getattr c "q1" = Raise AttributeError.
Proof. reflexivity. Qed.

(** C3. [BCQ.select_action] returns no action: for every state it decodes
    the candidates from the VAE and then stops with [TypeError] at the call
    of the actor with two arguments, leaving the agent as it was. *)
Theorem BCQ_select_action_raises `{Framework} (state : batch) (w : world BCQ.t) :
  snd (BCQ.select_action state w) = Raise TypeError
  /\ self (fst (BCQ.select_action state w)) = self w.
Proof.
  destruct (BCQ_select_action_run state w) as [g Hg]. rewrite Hg.
  split; reflexivity.
Qed.

(** C4. With at least one iteration asked for, [BCQ.train] stops with
    [TypeError] while it computes the critic target (at the call of the
    target actor on the decoded actions): no target is formed and the critic
    and its optimizer are left as they were. *)
Theorem BCQ_train_forms_no_target `{Framework} rb (p : positive) bs
    (w : world BCQ.t) :
  let w' := fst (BCQ.train rb (Z.pos p) bs w) in
  snd (BCQ.train rb (Z.pos p) bs w) = Raise TypeError
  /\ BCQ.critic (self w') = BCQ.critic (self w)
  /\ BCQ.critic_optimizer (self w') = BCQ.critic_optimizer (self w).
Proof.
  destruct (BCQ_train_run rb p bs w) as [g Hg]. rewrite Hg. cbn [fst snd self].
  pose proof (BCQ_step_vae_frame (self w) (BCQ_first_vae_loss rb bs w)) as Hf.
  cbv zeta in Hf. destruct Hf as (_ & _ & _ & _ & Hc & Hco & _).
  auto.
Qed.

(** C8. [BCQ.train] with no iteration asked for does nothing; with
    [iterations >= 1] it runs its first iteration only, and of that
    iteration only the sampling and the VAE update: it then stops with
    [TypeError], so the actor, the critic, their optimizers and both target
    networks are left as they were. *)
Theorem BCQ_train_stops_in_first_iteration `{Framework} rb (p : positive) bs
    (w : world BCQ.t) :
  let w' := fst (BCQ.train rb (Z.pos p) bs w) in
  BCQ.train rb 0 bs w = (w, Ok tt)
  /\ BCQ.train rb (Z.pos p) bs w = BCQ.train_iteration rb bs w
  /\ snd (BCQ.train rb (Z.pos p) bs w) = Raise TypeError
  /\ (VAE.params (BCQ.vae (self w')), BCQ.vae_optimizer (self w'))
       = optim_step (BCQ.vae_optimizer (self w)) (BCQ_first_vae_loss rb bs w)
           (VAE.params (BCQ.vae (self w)))
  /\ BCQ.actor (self w') = BCQ.actor (self w)
  /\ BCQ.actor_optimizer (self w') = BCQ.actor_optimizer (self w)
  /\ BCQ.critic (self w') = BCQ.critic (self w)
  /\ BCQ.critic_optimizer (self w') = BCQ.critic_optimizer (self w).
Proof.
  split; [reflexivity|].
  split; [apply BCQ_train_is_first_iteration|].
  destruct (BCQ_train_run rb p bs w) as [g Hg]. rewrite Hg. cbn [fst snd self].
  pose proof (BCQ_step_vae_frame (self w) (BCQ_first_vae_loss rb bs w)) as Hf.
  cbv zeta in Hf. destruct Hf as (Hv & Ha & Hao & _ & Hc & Hco & _).
  auto 10.
Qed.

(** C5. Whenever [TD3.train] takes the delayed branch (the incremented
    counter is a multiple of a non-zero [policy_freq]), each parameter of
    each target network becomes [tau * param + (1 - tau) * target_param]
    with the parameter of the freshly stepped online network at the same
    position, and on every other call the target networks keep their
    values.  [BCQ.train] never reaches its soft update: with at least one
    iteration asked for it stops with [TypeError] and both target networks
    keep their values. *)
Theorem polyak_target_updates `{Framework} :
  (forall rb bs (w : world TD3.t),
     let a := self w in
     let a' := self (fst (TD3.train rb bs w)) in
     let it := (TD3.total_it a + 1)%Z in
     (TD3.policy_freq a <> 0%Z /\ (it mod TD3.policy_freq a)%Z = 0%Z ->
        (forall i,
           nth_error (Critic.params (TD3.critic_target a')) i
           = spec_polyak_at (TD3.tau a)
               (nth_error (Critic.params (TD3.critic a')) i)
               (nth_error (Critic.params (TD3.critic_target a)) i))
        /\ (forall i,
              nth_error (Actor.params (TD3.actor_target a')) i
              = spec_polyak_at (TD3.tau a)
                  (nth_error (Actor.params (TD3.actor a')) i)
                  (nth_error (Actor.params (TD3.actor_target a)) i)))
     /\ (~ (TD3.policy_freq a <> 0%Z /\ (it mod TD3.policy_freq a)%Z = 0%Z) ->
           TD3.critic_target a' = TD3.critic_target a
           /\ TD3.actor_target a' = TD3.actor_target a))
  /\ (forall rb (p : positive) bs (w : world BCQ.t),
        let w' := fst (BCQ.train rb (Z.pos p) bs w) in
        snd (BCQ.train rb (Z.pos p) bs w) = Raise TypeError
        /\ BCQ.critic_target (self w') = BCQ.critic_target (self w)
        /\ BCQ.actor_target (self w') = BCQ.actor_target (self w)).
Proof.
  split.
  - intros rb bs w a a' it.
    pose proof (TD3_train_run rb bs w) as Hrun.
    destruct (TD3.drawn rb bs w) as [[tr eps] g]. cbv zeta in Hrun.
    set (a0 := TD3.set_total_it (self w) (TD3.total_it (self w) + 1)) in *.
    set (state := TD3.as_images a0 (tr_state tr)) in *.
    set (loss := TD3.critic_loss a0 state (tr_action tr) _) in Hrun.
    pose proof (TD3_step_critic_frame a0 loss) as Hc. cbv zeta in Hc.
    set (a1 := TD3.step_critic a0 loss) in *.
    destruct Hc as (_ & _ & _ & Hcat & Hcct & Hcpf & Hcit & Hctau).
    change (TD3.policy_freq a0) with (TD3.policy_freq a) in Hcpf.
    change (TD3.total_it a0) with it in Hcit.
    change (TD3.tau a0) with (TD3.tau a) in Hctau.
    change (TD3.actor_target a0) with (TD3.actor_target a) in Hcat.
    change (TD3.critic_target a0) with (TD3.critic_target a) in Hcct.
    rewrite Hcpf, Hcit in Hrun. unfold a'. rewrite Hrun.
    destruct (Z.eqb_spec (TD3.policy_freq a) 0) as [Hpf|Hpf].
    { cbn [fst self]. split; [intros [Hne _]; contradiction|]. auto. }
    destruct (Z.eqb_spec (it mod TD3.policy_freq a) 0) as [Hmod|Hmod].
    + cbn [fst self]. split; [|intros Hn; exfalso; apply Hn; auto].
      intros _.
      pose proof (TD3_step_actor_frame a1 (TD3.actor_loss a1 state)) as Ha.
      cbv zeta in Ha. destruct Ha as (_ & Hac & _ & Haat & Hact & _ & Hatau).
      unfold TD3_delayed. simpl.
      rewrite Hac, Hatau, Hctau, Haat, Hact, Hcat, Hcct.
      split; intros i; apply soft_update_at.
    + cbn [fst self]. split; [intros [_ Hm]; contradiction|]. auto.
  - intros rb p bs w.
    destruct (BCQ_train_run rb p bs w) as [g Hg]. rewrite Hg. cbn [fst snd self].
    pose proof (BCQ_step_vae_frame (self w) (BCQ_first_vae_loss rb bs w)) as Hf.
    cbv zeta in Hf. destruct Hf as (_ & _ & _ & Hat & _ & _ & Hct).
    auto.
Qed.

(** ** State dictionaries *)

Lemma keys_of_shapes (sd : state_dict) : List.map fst (shapes sd) = keys sd.
Proof.
  unfold shapes, keys. rewrite List.map_map. reflexivity.
Qed.

Lemma get_at (sd : state_dict) (i : nat) (k : string) (t : tensor) :
  List.NoDup (keys sd) -> nth_error sd i = Some (k, t) -> get sd k = Some t.
Proof.
  revert i. induction sd as [|[k0 t0] sd IH]; intros i Hnd Hi.
  - destruct i; discriminate.
  - simpl in Hnd. inversion Hnd as [|? ? Hnotin Hnd']; subst.
    destruct i as [|i]; simpl in *.
    + inversion Hi; subst. rewrite String.eqb_refl. reflexivity.
    + destruct (String.eqb_spec k k0) as [->|Hne].
      * exfalso. apply Hnotin. apply nth_error_In in Hi.
        change k0 with (fst (k0, t)). apply in_map, Hi.
      * apply (IH i); assumption.
Qed.

Lemma shapes_at (own saved : state_dict) (i : nat) :
  shapes own = shapes saved ->
  match nth_error own i, nth_error saved i with
  | Some (k, t), Some (k', t') => k = k' /\ length t = length t'
  | None, None => True
  | _, _ => False
  end.
Proof.
  intros Hs.
  assert (Hi : nth_error (shapes own) i = nth_error (shapes saved) i)
    by (rewrite Hs; reflexivity).
  unfold shapes, state_dict, tensor in *. rewrite !nth_error_map in Hi.
  destruct (nth_error own i) as [[k t]|], (nth_error saved i) as [[k' t']|];
    simpl in Hi; try discriminate; [|exact I].
  inversion Hi. auto.
Qed.

(** Loading into a module of the same configuration succeeds and leaves
    exactly the saved dictionary. *)
Lemma load_state_dict_same (own saved : state_dict) :
  same_configuration own saved -> load_state_dict own saved = Ok saved.
Proof.
  intros [Hnd Hs].
  assert (Hk : keys own = keys saved).
  { rewrite <- !keys_of_shapes, Hs. reflexivity. }
  assert (Hhas : forall sd, forallb (has_key sd) (keys sd) = true).
  { intros sd. apply forallb_forall. intros k Hin.
    unfold has_key. apply existsb_exists. exists k. split; [exact Hin|].
    apply String.eqb_refl. }
  unfold load_state_dict.
  replace (forallb (has_key saved) (keys own)) with true
    by (rewrite Hk; symmetry; apply Hhas).
  replace (forallb (has_key own) (keys saved)) with true
    by (unfold has_key at 1; rewrite Hk; symmetry; apply Hhas).
  assert (Hsz : forallb (size_matches saved) own = true).
  { apply forallb_forall. intros [k t] Hin.
    apply In_nth_error in Hin. destruct Hin as [i Hi].
    pose proof (shapes_at own saved i Hs) as Hat. rewrite Hi in Hat.
    destruct (nth_error saved i) as [[k' t']|] eqn:Hi'; [|contradiction].
    destruct Hat as [-> Hlen].
    unfold size_matches. simpl. rewrite (get_at saved i k' t' Hnd Hi').
    apply Nat.eqb_eq. symmetry. exact Hlen. }
  rewrite Hsz. simpl. f_equal.
  apply nth_error_ext. intros i. rewrite nth_error_map.
  pose proof (shapes_at own saved i Hs) as Hat.
  destruct (nth_error own i) as [[k t]|] eqn:Hi,
           (nth_error saved i) as [[k' t']|] eqn:Hi'; try contradiction.
  - destruct Hat as [-> _]. simpl. unfold param.
    rewrite (get_at saved i k' t' Hnd Hi'). reflexivity.
  - reflexivity.
Qed.

(** ** File names *)

Lemma append_cancel_l (f a b : string) :
  (f ++ a)%string = (f ++ b)%string -> a = b.
Proof.
  induction f as [|c f IH]; simpl; intros Heq.
  - exact Heq.
  - inversion Heq. auto.
Qed.

Lemma suffix_differs (f a b : string) :
  a <> b -> (f ++ a)%string <> (f ++ b)%string.
Proof. intros Hne Heq. apply Hne, (append_cancel_l f), Heq. Qed.

(** ** [save] and [load] *)

Section Checkpoints.
Context `{Framework}.

Lemma checkpoint_lookup f csd co asd ao (files : gmap string blob) :
  let files' := checkpoint f csd co asd ao files in
  files' !! (f ++ "_critic")%string = Some (ParamBlob csd)
  /\ files' !! (f ++ "_critic_optimizer")%string = Some (OptimBlob co)
  /\ files' !! (f ++ "_actor")%string = Some (ParamBlob asd)
  /\ files' !! (f ++ "_actor_optimizer")%string = Some (OptimBlob ao).
Proof.
  unfold checkpoint. repeat split.
  - rewrite !lookup_insert_ne by (apply suffix_differs; discriminate).
    apply lookup_insert_eq.
  - rewrite !lookup_insert_ne by (apply suffix_differs; discriminate).
    apply lookup_insert_eq.
  - rewrite !lookup_insert_ne by (apply suffix_differs; discriminate).
    apply lookup_insert_eq.
  - apply lookup_insert_eq.
Qed.

Lemma checkpoint_other f csd co asd ao (files : gmap string blob) name :
  name <> (f ++ "_critic")%string ->
  name <> (f ++ "_critic_optimizer")%string ->
  name <> (f ++ "_actor")%string ->
  name <> (f ++ "_actor_optimizer")%string ->
  checkpoint f csd co asd ao files !! name = files !! name.
Proof.
  intros H1 H2 H3 H4. unfold checkpoint.
  rewrite !lookup_insert_ne by congruence. reflexivity.
Qed.

Lemma TD3_save_run f (w : world TD3.t) :
  TD3.save f w =
    ({| self := self w; gen := gen w;
        fs := checkpoint f
                (Critic.params (TD3.critic (self w))) (TD3.critic_optimizer (self w))
                (Actor.params (TD3.actor (self w))) (TD3.actor_optimizer (self w))
                (fs w);
        stdout := stdout w ++ [("This ran" ++ f)%string] |}, Ok tt).
Proof. reflexivity. Qed.

Lemma BCQ_save_run f (w : world BCQ.t) :
  BCQ.save f w =
    ({| self := self w; gen := gen w;
        fs := checkpoint f
                (Critic.params (BCQ.critic (self w))) (BCQ.critic_optimizer (self w))
                (Actor.params (BCQ.actor (self w))) (BCQ.actor_optimizer (self w))
                (fs w);
        stdout := stdout w |}, Ok tt).
Proof. reflexivity. Qed.

Ltac run_load H1 H2 H3 H4 H5 H6 :=
  unfold bind, torch_load, get_self, lift, modify, print; simpl;
  rewrite H1; simpl; rewrite H2; simpl; rewrite H3; simpl;
  rewrite H4; simpl; rewrite H5; simpl; rewrite H6; simpl; reflexivity.

Lemma TD3_load_run f (w : world TD3.t) csd theta co asd phi ao :
  fs w !! (f ++ "_critic")%string = Some (ParamBlob csd) ->
  load_state_dict (Critic.params (TD3.critic (self w))) csd = Ok theta ->
  fs w !! (f ++ "_critic_optimizer")%string = Some (OptimBlob co) ->
  fs w !! (f ++ "_actor")%string = Some (ParamBlob asd) ->
  load_state_dict (Actor.params (TD3.actor (self w))) asd = Ok phi ->
  fs w !! (f ++ "_actor_optimizer")%string = Some (OptimBlob ao) ->
  TD3.load f w =
    ({| self := TD3_loaded (self w) theta co phi ao; gen := gen w; fs := fs w;
        stdout := stdout w
                    ++ [(nl ++ "files loaded successfully" ++ nl ++ f)%string] |},
     Ok tt).
Proof.
  intros H1 H2 H3 H4 H5 H6. unfold TD3.load. run_load H1 H2 H3 H4 H5 H6.
Qed.

Lemma BCQ_load_run f (w : world BCQ.t) csd theta co asd phi ao :
  fs w !! (f ++ "_critic")%string = Some (ParamBlob csd) ->
  load_state_dict (Critic.params (BCQ.critic (self w))) csd = Ok theta ->
  fs w !! (f ++ "_critic_optimizer")%string = Some (OptimBlob co) ->
  fs w !! (f ++ "_actor")%string = Some (ParamBlob asd) ->
  load_state_dict (Actor.params (BCQ.actor (self w))) asd = Ok phi ->
  fs w !! (f ++ "_actor_optimizer")%string = Some (OptimBlob ao) ->
  BCQ.load f w =
    ({| self := BCQ_loaded (self w) theta co phi ao; gen := gen w; fs := fs w;
        stdout := stdout w
                    ++ [(nl ++ "loaded the model successfully" ++ nl)%string] |},
     Ok tt).
Proof.
  intros H1 H2 H3 H4 H5 H6. unfold BCQ.load. run_load H1 H2 H3 H4 H5 H6.
Qed.

End Checkpoints.

Section LoadInversion.
Context `{Framework}.




End LoadInversion.

Lemma TD3_save_then_load `{Framework} f (w : world TD3.t) (b : TD3.t) :
  same_configuration (Critic.params (TD3.critic b))
    (Critic.params (TD3.critic (self w))) ->
  same_configuration (Actor.params (TD3.actor b))
    (Actor.params (TD3.actor (self w))) ->
  exists out,
    TD3.load f (with_self (fst (TD3.save f w)) b) =
      ({| self := TD3_loaded b
                    (Critic.params (TD3.critic (self w))) (TD3.critic_optimizer (self w))
                    (Actor.params (TD3.actor (self w))) (TD3.actor_optimizer (self w));
          gen := gen w; fs := fs (fst (TD3.save f w)); stdout := out |}, Ok tt).
Proof.
  intros Hc Ha. rewrite TD3_save_run. cbn [fst].
  destruct (checkpoint_lookup f
              (Critic.params (TD3.critic (self w))) (TD3.critic_optimizer (self w))
              (Actor.params (TD3.actor (self w))) (TD3.actor_optimizer (self w))
              (fs w)) as (L1 & L2 & L3 & L4).
  set (w1 := with_self _ b).
  eexists.
  rewrite (TD3_load_run f w1 _ _ _ _ _ _ L1 (load_state_dict_same _ _ Hc) L2 L3
             (load_state_dict_same _ _ Ha) L4).
  reflexivity.
Qed.

Lemma BCQ_save_then_load `{Framework} f (w : world BCQ.t) (b : BCQ.t) :
  same_configuration (Critic.params (BCQ.critic b))
    (Critic.params (BCQ.critic (self w))) ->
  same_configuration (Actor.params (BCQ.actor b))
    (Actor.params (BCQ.actor (self w))) ->
  exists out,
    BCQ.load f (with_self (fst (BCQ.save f w)) b) =
      ({| self := BCQ_loaded b
                    (Critic.params (BCQ.critic (self w))) (BCQ.critic_optimizer (self w))
                    (Actor.params (BCQ.actor (self w))) (BCQ.actor_optimizer (self w));
          gen := gen w; fs := fs (fst (BCQ.save f w)); stdout := out |}, Ok tt).
Proof.
  intros Hc Ha. rewrite BCQ_save_run. cbn [fst].
  destruct (checkpoint_lookup f
              (Critic.params (BCQ.critic (self w))) (BCQ.critic_optimizer (self w))
              (Actor.params (BCQ.actor (self w))) (BCQ.actor_optimizer (self w))
              (fs w)) as (L1 & L2 & L3 & L4).
  set (w1 := with_self _ b).
  eexists.
  rewrite (BCQ_load_run f w1 _ _ _ _ _ _ L1 (load_state_dict_same _ _ Hc) L2 L3
             (load_state_dict_same _ _ Ha) L4).
  reflexivity.
Qed.

Lemma layers_configuration (names : list string) (w b w' b' : R) :
  List.NoDup names ->
  same_configuration (Toy.layers names w b) (Toy.layers names w' b').
Proof.
  intros Hnd. unfold same_configuration, Toy.layers, keys, shapes.
  rewrite !List.map_map. simpl. rewrite List.map_id. split; [exact Hnd|reflexivity].
Qed.

Ltac distinct_names :=
  repeat (constructor; [simpl; intuition discriminate|]); constructor.

Lemma Actor_names_distinct (image_obs cnn : bool) :
  List.NoDup (Actor.names image_obs cnn).
Proof. destruct image_obs, cnn; distinct_names. Qed.

Lemma Critic_names_distinct (image_obs cnn : bool) :
  List.NoDup (Critic.names image_obs cnn).
Proof. destruct image_obs, cnn; distinct_names. Qed.

Lemma VAE_names_distinct : List.NoDup VAE.names.
Proof. distinct_names. Qed.


(** C7. For either agent and every prefix, [save] followed by [load] on an
    agent of the same configuration returns, and leaves the critic's and
    the actor's parameters and the states of their optimizers as they were
    in the saved agent. *)
Theorem save_load_round_trip `{Framework} :
  (forall f (w : world TD3.t) (b : TD3.t),
     same_configuration (Critic.params (TD3.critic b))
       (Critic.params (TD3.critic (self w))) ->
     same_configuration (Actor.params (TD3.actor b))
       (Actor.params (TD3.actor (self w))) ->
     exists w',
       TD3.load f (with_self (fst (TD3.save f w)) b) = (w', Ok tt)
       /\ Critic.params (TD3.critic (self w')) = Critic.params (TD3.critic (self w))
       /\ TD3.critic_optimizer (self w') = TD3.critic_optimizer (self w)
       /\ Actor.params (TD3.actor (self w')) = Actor.params (TD3.actor (self w))
       /\ TD3.actor_optimizer (self w') = TD3.actor_optimizer (self w))
  /\ (forall f (w : world BCQ.t) (b : BCQ.t),
        same_configuration (Critic.params (BCQ.critic b))
          (Critic.params (BCQ.critic (self w))) ->
        same_configuration (Actor.params (BCQ.actor b))
          (Actor.params (BCQ.actor (self w))) ->
        exists w',
          BCQ.load f (with_self (fst (BCQ.save f w)) b) = (w', Ok tt)
          /\ Critic.params (BCQ.critic (self w')) = Critic.params (BCQ.critic (self w))
          /\ BCQ.critic_optimizer (self w') = BCQ.critic_optimizer (self w)
          /\ Actor.params (BCQ.actor (self w')) = Actor.params (BCQ.actor (self w))
          /\ BCQ.actor_optimizer (self w') = BCQ.actor_optimizer (self w)).
Proof.
  split.
  - intros f w b Hc Ha.
    destruct (TD3_save_then_load f w b Hc Ha) as [out Hrun].
    eexists. split; [exact Hrun|]. repeat split.
  - intros f w b Hc Ha.
    destruct (BCQ_save_then_load f w b Hc Ha) as [out Hrun].
    eexists. split; [exact Hrun|]. repeat split.
Qed.

Lemma save_load_round_trip_witness :
  exists w',
    TD3.load "model"
      (with_self (fst (TD3.save "model" (Toy.boot Toy.td3))) Toy.td3_later)
    = (w', Ok tt)
    /\ Critic.params (TD3.critic (self w')) = Critic.params Toy.critic0
    /\ TD3.critic_optimizer (self w') = 0
    /\ Actor.params (TD3.actor (self w')) = Actor.params Toy.actor0
    /\ TD3.actor_optimizer (self w') = 0.
Proof.
  apply (proj1 (@save_load_round_trip Toy.framework) "model"
           (Toy.boot Toy.td3) Toy.td3_later).
  - apply layers_configuration, Critic_names_distinct.
  - apply layers_configuration, Actor_names_distinct.
Defined.


(** C6, as stated, fails for BCQ: after [save] on a fresh process no file
    holds the VAE's parameters and none holds its optimizer's state. *)
Lemma BCQ_save_drops_vae :
  ~ persisted (fs (fst (BCQ.save "model" (Toy.boot Toy.bcq))))
      (ParamBlob (VAE.params (BCQ.vae Toy.bcq)))
  /\ ~ persisted (fs (fst (BCQ.save "model" (Toy.boot Toy.bcq))))
         (OptimBlob (BCQ.vae_optimizer Toy.bcq)).
Proof.
  split; intros [name Hn]; rewrite BCQ_save_run in Hn;
    unfold Toy.boot, checkpoint in Hn; cbn [fst fs self] in Hn;
    repeat (rewrite lookup_insert in Hn; case_decide; [discriminate Hn|]);
    rewrite lookup_empty in Hn; discriminate Hn.
Qed.

(** C6, amended. For either agent and every prefix, [save] returns, writes
    the critic's and the actor's parameters and the states of their two
    optimizers to the files named by the prefix followed by [_critic],
    [_critic_optimizer], [_actor] and [_actor_optimizer], touches no other
    file and leaves the agent and the random generator as they were
    ([TD3.save] also prints one line).  [BCQ.save] writes nothing of the
    VAE: its files are the same whatever the VAE and its optimizer are. *)
Theorem save_writes_checkpoint `{Framework} :
  (forall f (w : world TD3.t),
     let a := self w in
     let w' := fst (TD3.save f w) in
     snd (TD3.save f w) = Ok tt
     /\ self w' = a /\ gen w' = gen w
     /\ stdout w' = stdout w ++ [("This ran" ++ f)%string]
     /\ fs w' !! (f ++ "_critic")%string
          = Some (ParamBlob (Critic.params (TD3.critic a)))
     /\ fs w' !! (f ++ "_critic_optimizer")%string
          = Some (OptimBlob (TD3.critic_optimizer a))
     /\ fs w' !! (f ++ "_actor")%string
          = Some (ParamBlob (Actor.params (TD3.actor a)))
     /\ fs w' !! (f ++ "_actor_optimizer")%string
          = Some (OptimBlob (TD3.actor_optimizer a))
     /\ (forall name,
           ~ In name [(f ++ "_critic")%string; (f ++ "_critic_optimizer")%string;
                      (f ++ "_actor")%string; (f ++ "_actor_optimizer")%string] ->
           fs w' !! name = fs w !! name))
  /\ (forall f (w : world BCQ.t),
        let a := self w in
        let w' := fst (BCQ.save f w) in
        snd (BCQ.save f w) = Ok tt
        /\ self w' = a /\ gen w' = gen w /\ stdout w' = stdout w
        /\ fs w' !! (f ++ "_critic")%string
             = Some (ParamBlob (Critic.params (BCQ.critic a)))
        /\ fs w' !! (f ++ "_critic_optimizer")%string
             = Some (OptimBlob (BCQ.critic_optimizer a))
        /\ fs w' !! (f ++ "_actor")%string
             = Some (ParamBlob (Actor.params (BCQ.actor a)))
        /\ fs w' !! (f ++ "_actor_optimizer")%string
             = Some (OptimBlob (BCQ.actor_optimizer a))
        /\ (forall name,
              ~ In name [(f ++ "_critic")%string; (f ++ "_critic_optimizer")%string;
                         (f ++ "_actor")%string; (f ++ "_actor_optimizer")%string] ->
              fs w' !! name = fs w !! name)
        /\ (forall (v : VAE.t) (o : optim_state),
              fs (fst (BCQ.save f (with_self w (BCQ.set_vae a v o)))) = fs w')).
Proof.
  split.
  - intros f w a w'. unfold w'. rewrite TD3_save_run. cbn [fst snd self gen fs stdout].
    destruct (checkpoint_lookup f
                (Critic.params (TD3.critic a)) (TD3.critic_optimizer a)
                (Actor.params (TD3.actor a)) (TD3.actor_optimizer a)
                (fs w)) as (L1 & L2 & L3 & L4).
    repeat (split; [first [reflexivity | assumption]|]).
    intros name Hname. apply checkpoint_other; intros ->; apply Hname; simpl; auto.
  - intros f w a w'. unfold w'. rewrite BCQ_save_run. cbn [fst snd self gen fs stdout].
    destruct (checkpoint_lookup f
                (Critic.params (BCQ.critic a)) (BCQ.critic_optimizer a)
                (Actor.params (BCQ.actor a)) (BCQ.actor_optimizer a)
                (fs w)) as (L1 & L2 & L3 & L4).
    repeat (split; [first [reflexivity | assumption]|]).
    split.
    + intros name Hname. apply checkpoint_other; intros ->; apply Hname; simpl; auto.
    + intros v o. reflexivity.
Qed.

(** ** Concrete runs *)

Lemma clamp1_bounds (lo hi x : R) :
  (lo <= hi)%R -> (lo <= clamp1 lo hi x <= hi)%R.
Proof.
  intros Hle. unfold clamp1, Rmin, Rmax.
  destruct (Rle_dec x lo), (Rle_dec _ hi); lra.
Qed.

(** With the bounds the wrong way round, [clamp] returns the upper one. *)
Lemma clamp1_crossed (lo hi x : R) :
  (hi < lo)%R -> clamp1 lo hi x = hi.
Proof.
  intros Hlt. unfold clamp1, Rmin, Rmax.
  destruct (Rle_dec x lo), (Rle_dec _ hi); lra.
Qed.

Example linear1_two_outputs :
  linear1 [1; 2; 3; 4]%R [10; 20]%R [1; 1]%R = [1 * 1 + (2 * 1 + 0) + 10; 3 * 1 + (4 * 1 + 0) + 20]%R.
Proof. reflexivity. Qed.

Example view_cols_rows :
  view_cols 2 [[1; 2; 3]; [4]]%R = [[1; 2]; [3; 4]]%R.
Proof. reflexivity. Qed.

Example repeat_interleave_rows :
  repeat_interleave 2 [[1]; [2]]%R = [[1]; [1]; [2]; [2]]%R.
Proof. reflexivity. Qed.

Example soft_update_shorter_online :
  soft_update 1 [("w", [5%R])] [("w", [7%R]); ("b", [9%R])]
  = [("w", tadd (tscale 1 [5%R]) (tscale (1 - 1) [7%R])); ("b", [9%R])].
Proof. reflexivity. Qed.

Example load_state_dict_missing_key :
  load_state_dict [("w", [0%R]); ("b", [0%R])] [("w", [1%R])] = Raise RuntimeError.
Proof. reflexivity. Qed.

Example load_state_dict_size_mismatch :
  load_state_dict [("w", [0%R])] [("w", [1%R; 2%R])] = Raise RuntimeError.
Proof. reflexivity. Qed.

Example load_without_files :
  snd (TD3.load "model" (Toy.boot Toy.td3)) = Raise FileNotFoundError.
Proof. reflexivity. Qed.

(** The first call returns; with [policy_freq = 0] the test on the counter
    raises. *)
Example policy_freq_zero_raises :
  snd (TD3.train [Toy.batch0] 100 (Toy.boot Toy.td3)) = Ok tt
  /\ snd (TD3.train [] 100
            (Toy.boot
               {| TD3.actor := Toy.actor0; TD3.actor_target := Toy.actor0;
                  TD3.actor_optimizer := 0;
                  TD3.critic := Toy.critic0; TD3.critic_target := Toy.critic0;
                  TD3.critic_optimizer := 0;
                  TD3.max_action := 1; TD3.image_obs := false; TD3.cnn := false;
                  TD3.discount := 0.99; TD3.tau := 0.005; TD3.policy_noise := 0.2;
                  TD3.noise_clip := 0.5; TD3.policy_freq := 0; TD3.total_it := 0 |}))
     = Raise ZeroDivisionError.
Proof. split; reflexivity. Qed.

(** The second call of [train] on a fresh agent takes the delayed branch:
    the toy optimizer has stepped the actor once. *)
Example second_call_steps_actor :
  let w1 := fst (TD3.train [Toy.batch0; Toy.batch0] 100 (Toy.boot Toy.td3)) in
  let w2 := fst (TD3.train [Toy.batch0; Toy.batch0] 100 w1) in
  TD3.actor_optimizer (self w1) = 0
  /\ TD3.actor_optimizer (self w2) = 1
  /\ TD3.critic_optimizer (self w2) = 2
  /\ TD3.total_it (self w2) = 2%Z.
Proof. repeat split. Qed.

(** * Further properties of the code *)

(** ** Construction *)

Section ConstructionFacts.
Context `{Framework} `{!Initializers}.

Ltac run_init :=
  unfold Actor_init, Critic_init, VAE_init, TD3_init, BCQ_init, apply_layers,
    init_weights, draw_orthogonal, nn_Linear, nn_Conv2d, bind, ret;
  cbn [self gen fs stdout andb];
  repeat match goal with
         | |- context [new_linear ?i ?o ?g] =>
             let Hd := fresh "Hdraw" in
             destruct (new_linear i o g) as [[? ?] ?] eqn:Hd;
             cbn [self gen fs stdout]
         | |- context [new_conv2d ?i ?o ?k ?g] =>
             let Hd := fresh "Hdraw" in
             destruct (new_conv2d i o k g) as [[? ?] ?] eqn:Hd;
             cbn [self gen fs stdout]
         | |- context [orthogonal_ ?t ?g] =>
             let Hd := fresh "Hdraw" in
             destruct (orthogonal_ t g) as [? ?] eqn:Hd;
             cbn [self gen fs stdout]
         end.

Lemma Actor_init_names {A} state_dim action_dim max_action image_obs cnn
    (w : world A) :
  exists w' a,
    Actor_init state_dim action_dim max_action image_obs cnn w = (w', Ok a)
    /\ keys (Actor.params a) = Actor.names image_obs cnn
    /\ Actor.image_obs a = image_obs /\ Actor.cnn a = cnn
    /\ Actor.cnn_out a = state_dim * 4 * 4
    /\ Actor.max_action a = max_action
    /\ self w' = self w /\ fs w' = fs w /\ stdout w' = stdout w.
Proof.
  destruct image_obs, cnn; run_init; eexists _, _; repeat split.
Qed.

Lemma Critic_init_names {A} state_dim action_dim image_obs cnn (w : world A) :
  exists w' c,
    Critic_init state_dim action_dim image_obs cnn w = (w', Ok c)
    /\ keys (Critic.params c) = Critic.names image_obs cnn
    /\ Critic.image_obs c = image_obs /\ Critic.cnn c = cnn
    /\ Critic.cnn_out c = state_dim * 4 * 4
    /\ self w' = self w /\ fs w' = fs w /\ stdout w' = stdout w.
Proof.
  destruct image_obs, cnn; run_init; eexists _, _; repeat split.
Qed.

Lemma VAE_init_names {A} state_dim action_dim latent_dim max_action (w : world A) :
  exists w' v,
    VAE_init state_dim action_dim latent_dim max_action w = (w', Ok v)
    /\ keys (VAE.params v) = VAE.names
    /\ VAE.latent_dim v = latent_dim /\ VAE.max_action v = max_action
    /\ self w' = self w /\ fs w' = fs w /\ stdout w' = stdout w.
Proof.
  run_init; eexists _, _; repeat split.
Qed.

End ConstructionFacts.

(** X1. Each network constructor returns, whatever its arguments and the
    generator are, a network whose parameters are registered under the
    names of its class in the order [state_dict()] lists them, with the
    flags it was given and [cnn_out = state_dim * 4 * 4]; it reads the
    generator only. *)
Theorem fresh_network_names `{Framework} `{!Initializers} :
  (forall A state_dim action_dim max_action image_obs cnn (w : world A),
     exists w' a,
       Actor_init state_dim action_dim max_action image_obs cnn w = (w', Ok a)
       /\ keys (Actor.params a) = Actor.names image_obs cnn
       /\ Actor.image_obs a = image_obs /\ Actor.cnn a = cnn
       /\ Actor.cnn_out a = state_dim * 4 * 4
       /\ Actor.max_action a = max_action
       /\ self w' = self w /\ fs w' = fs w /\ stdout w' = stdout w)
  /\ (forall A state_dim action_dim image_obs cnn (w : world A),
        exists w' c,
          Critic_init state_dim action_dim image_obs cnn w = (w', Ok c)
          /\ keys (Critic.params c) = Critic.names image_obs cnn
          /\ Critic.image_obs c = image_obs /\ Critic.cnn c = cnn
          /\ Critic.cnn_out c = state_dim * 4 * 4
          /\ self w' = self w /\ fs w' = fs w /\ stdout w' = stdout w)
  /\ (forall A state_dim action_dim latent_dim max_action (w : world A),
        exists w' v,
          VAE_init state_dim action_dim latent_dim max_action w = (w', Ok v)
          /\ keys (VAE.params v) = VAE.names
          /\ VAE.latent_dim v = latent_dim /\ VAE.max_action v = max_action
          /\ self w' = self w /\ fs w' = fs w /\ stdout w' = stdout w).
Proof.
  split; [|split]; intros.
  - apply Actor_init_names.
  - apply Critic_init_names.
  - apply VAE_init_names.
Qed.

Section ConstructionShapes.
Context `{Framework} `{!Initializers}.
Hypothesis sized : sized_initializers.

Local Opaque Nat.mul Nat.pow Nat.add.

Ltac run_sized :=
  unfold Actor_init, Critic_init, VAE_init, apply_layers,
    init_weights, draw_orthogonal, nn_Linear, nn_Conv2d, bind, ret;
  cbn [self gen fs stdout andb];
  repeat match goal with
         | |- context [new_linear ?i ?o ?g] =>
             let Hs := fresh "Hsize" in
             pose proof (proj1 sized i o g) as Hs;
             destruct (new_linear i o g) as [[? ?] ?];
             cbn [self gen fs stdout fst snd] in *; destruct Hs
         | |- context [new_conv2d ?i ?o ?k ?g] =>
             let Hs := fresh "Hsize" in
             pose proof (proj1 (proj2 sized) i o k g) as Hs;
             destruct (new_conv2d i o k g) as [[? ?] ?];
             cbn [self gen fs stdout fst snd] in *; destruct Hs
         | |- context [orthogonal_ ?t ?g] =>
             let Hs := fresh "Hsize" in
             pose proof (proj2 (proj2 sized) t g) as Hs;
             destruct (orthogonal_ t g) as [? ?];
             cbn [self gen fs stdout fst snd] in *
         end.

Ltac close_shapes :=
  eexists _, _; split; [reflexivity|];
  unfold shapes, layer_shape; simpl;
  repeat match goal with Hl : length _ = _ |- _ => rewrite Hl; clear Hl end;
  reflexivity.

Lemma Actor_init_shapes {A} state_dim action_dim max_action image_obs cnn
    (w : world A) :
  exists w' a,
    Actor_init state_dim action_dim max_action image_obs cnn w = (w', Ok a)
    /\ shapes (Actor.params a) = Actor_shapes state_dim action_dim image_obs cnn.
Proof.
  unfold Actor_shapes. destruct image_obs, cnn; run_sized; close_shapes.
Qed.

Lemma Critic_init_shapes {A} state_dim action_dim image_obs cnn (w : world A) :
  exists w' c,
    Critic_init state_dim action_dim image_obs cnn w = (w', Ok c)
    /\ shapes (Critic.params c) = Critic_shapes state_dim action_dim image_obs cnn.
Proof.
  unfold Critic_shapes. destruct image_obs, cnn; run_sized; close_shapes.
Qed.

Lemma VAE_init_shapes {A} state_dim action_dim latent_dim max_action
    (w : world A) :
  exists w' v,
    VAE_init state_dim action_dim latent_dim max_action w = (w', Ok v)
    /\ shapes (VAE.params v) = VAE_shapes state_dim action_dim latent_dim.
Proof.
  unfold VAE_shapes. run_sized; close_shapes.
Qed.

End ConstructionShapes.

Lemma toy_sized : @sized_initializers Toy.framework toy_initializers.
Proof.
  unfold sized_initializers. cbn [new_linear new_conv2d orthogonal_ toy_initializers fst snd].
  repeat split; apply repeat_length.
Qed.

(** X2. When the framework's initializers return tensors of the layers'
    sizes, each constructor returns a network whose [state_dict()] has
    exactly the names and sizes of the table of its class: they depend on
    [state_dim], [action_dim], [latent_dim] and the two flags only, never
    on the generator or on [max_action]. *)
Theorem fresh_network_shapes `{Framework} `{!Initializers} :
  sized_initializers ->
  (forall A state_dim action_dim max_action image_obs cnn (w : world A),
     exists w' a,
       Actor_init state_dim action_dim max_action image_obs cnn w = (w', Ok a)
       /\ shapes (Actor.params a) = Actor_shapes state_dim action_dim image_obs cnn)
  /\ (forall A state_dim action_dim image_obs cnn (w : world A),
        exists w' c,
          Critic_init state_dim action_dim image_obs cnn w = (w', Ok c)
          /\ shapes (Critic.params c)
             = Critic_shapes state_dim action_dim image_obs cnn)
  /\ (forall A state_dim action_dim latent_dim max_action (w : world A),
        exists w' v,
          VAE_init state_dim action_dim latent_dim max_action w = (w', Ok v)
          /\ shapes (VAE.params v) = VAE_shapes state_dim action_dim latent_dim).
Proof.
  intros sized. split; [|split]; intros.
  - apply Actor_init_shapes, sized.
  - apply Critic_init_shapes, sized.
  - apply VAE_init_shapes, sized.
Qed.

Lemma fresh_network_shapes_witness :
  exists w' a,
    Actor_init 3 2 1 false false (Toy.boot tt) = (w', Ok a)
    /\ shapes (Actor.params a) = Actor_shapes 3 2 false false.
Proof.
  apply (proj1 (@fresh_network_shapes Toy.framework toy_initializers toy_sized)
           unit 3 2 1%R false false (Toy.boot tt)).
Defined.

Section FreshAgents.
Context `{Framework} `{!Initializers}.
Hypothesis sized : sized_initializers.

Local Opaque Nat.mul Nat.pow Nat.add.

Lemma Actor_shapes_names state_dim action_dim image_obs cnn :
  List.map fst (Actor_shapes state_dim action_dim image_obs cnn)
  = Actor.names image_obs cnn.
Proof. destruct image_obs, cnn; reflexivity. Qed.

Lemma Critic_shapes_names state_dim action_dim image_obs cnn :
  List.map fst (Critic_shapes state_dim action_dim image_obs cnn)
  = Critic.names image_obs cnn.
Proof. destruct image_obs, cnn; reflexivity. Qed.

(** Two dictionaries with the shapes of one table of distinct names have
    the same configuration. *)
Lemma same_table_configuration (own saved : state_dict) table :
  List.NoDup (List.map fst table) ->
  shapes own = table -> shapes saved = table ->
  same_configuration own saved.
Proof.
  intros Hnd Ho Hs. split.
  - rewrite <- keys_of_shapes, Hs. exact Hnd.
  - rewrite Ho, Hs. reflexivity.
Qed.

Lemma TD3_init_run {A} state_dim action_dim max_action image_obs
    discount tau policy_noise noise_clip policy_freq cnn (w : world A) :
  exists w' a,
    TD3_init state_dim action_dim max_action image_obs discount tau
      policy_noise noise_clip policy_freq cnn w = (w', Ok a)
    /\ shapes (Actor.params (TD3.actor a))
       = Actor_shapes state_dim action_dim image_obs cnn
    /\ shapes (Critic.params (TD3.critic a))
       = Critic_shapes state_dim action_dim image_obs cnn
    /\ TD3.actor_target a = TD3.actor a
    /\ TD3.critic_target a = TD3.critic a
    /\ TD3.total_it a = 0%Z
    /\ TD3.policy_freq a = policy_freq.
Proof.
  unfold TD3_init, bind.
  destruct (Actor_init_shapes sized state_dim action_dim max_action image_obs cnn w)
    as (w1 & a & -> & Ha).
  destruct (Critic_init_shapes sized state_dim action_dim image_obs cnn w1)
    as (w2 & c & -> & Hc).
  eexists _, _. split; [reflexivity|]. cbn. auto 10.
Qed.

Lemma BCQ_init_run {A} state_dim action_dim max_action
    discount tau lmbda phi policy_noise noise_clip policy_freq cnn image_obs
    (w : world A) :
  exists w' a,
    BCQ_init state_dim action_dim max_action discount tau lmbda phi
      policy_noise noise_clip policy_freq cnn image_obs w = (w', Ok a)
    /\ shapes (Actor.params (BCQ.actor a))
       = Actor_shapes state_dim action_dim image_obs cnn
    /\ shapes (Critic.params (BCQ.critic a))
       = Critic_shapes state_dim action_dim image_obs cnn
    /\ shapes (VAE.params (BCQ.vae a))
       = VAE_shapes state_dim action_dim (action_dim * 2)
    /\ VAE.latent_dim (BCQ.vae a) = action_dim * 2
    /\ BCQ.actor_target a = BCQ.actor a
    /\ BCQ.critic_target a = BCQ.critic a
    /\ BCQ.total_it a = 0%Z.
Proof.
  unfold BCQ_init, bind.
  destruct (Actor_init_shapes sized state_dim action_dim max_action image_obs cnn w)
    as (w1 & a & -> & Ha).
  destruct (Critic_init_shapes sized state_dim action_dim image_obs cnn w1)
    as (w2 & c & -> & Hc).
  destruct (VAE_init_names state_dim action_dim (action_dim * 2) max_action w2)
    as (w3 & v & Hv & _ & Hlat & _).
  destruct (VAE_init_shapes sized state_dim action_dim (action_dim * 2) max_action w2)
    as (w3' & v' & Hv' & Hsv).
  rewrite Hv in Hv'. inversion Hv'; subst w3' v'. rewrite Hv.
  eexists _, _. split; [reflexivity|]. cbn. auto 10.
Qed.

End FreshAgents.

(** X3. With initializers of the layers' sizes, a checkpoint saved from a
    freshly constructed agent loads into any agent constructed with the
    same [state_dim], [action_dim], [image_obs] and [cnn], whatever the
    generator and the other arguments of the two constructions were, and
    gives it the saved critic, actor and optimizer states. *)
Theorem fresh_agents_exchange_checkpoints `{Framework} `{!Initializers} :
  sized_initializers ->
  (forall A state_dim action_dim image_obs cnn
          max_action discount tau policy_noise noise_clip policy_freq
          max_action' discount' tau' policy_noise' noise_clip' policy_freq'
          (wa wb : world A) f (w0 : world TD3.t),
     exists wa' a wb' b w',
       TD3_init state_dim action_dim max_action image_obs discount tau
         policy_noise noise_clip policy_freq cnn wa = (wa', Ok a)
       /\ TD3_init state_dim action_dim max_action' image_obs discount' tau'
            policy_noise' noise_clip' policy_freq' cnn wb = (wb', Ok b)
       /\ TD3.load f (with_self (fst (TD3.save f (with_self w0 a))) b) = (w', Ok tt)
       /\ Critic.params (TD3.critic (self w')) = Critic.params (TD3.critic a)
       /\ TD3.critic_optimizer (self w') = TD3.critic_optimizer a
       /\ Actor.params (TD3.actor (self w')) = Actor.params (TD3.actor a)
       /\ TD3.actor_optimizer (self w') = TD3.actor_optimizer a)
  /\ (forall A state_dim action_dim image_obs cnn
             max_action discount tau lmbda phi policy_noise noise_clip policy_freq
             max_action' discount' tau' lmbda' phi' policy_noise' noise_clip'
             policy_freq'
             (wa wb : world A) f (w0 : world BCQ.t),
        exists wa' a wb' b w',
          BCQ_init state_dim action_dim max_action discount tau lmbda phi
            policy_noise noise_clip policy_freq cnn image_obs wa = (wa', Ok a)
          /\ BCQ_init state_dim action_dim max_action' discount' tau' lmbda' phi'
               policy_noise' noise_clip' policy_freq' cnn image_obs wb = (wb', Ok b)
          /\ BCQ.load f (with_self (fst (BCQ.save f (with_self w0 a))) b) = (w', Ok tt)
          /\ Critic.params (BCQ.critic (self w')) = Critic.params (BCQ.critic a)
          /\ BCQ.critic_optimizer (self w') = BCQ.critic_optimizer a
          /\ Actor.params (BCQ.actor (self w')) = Actor.params (BCQ.actor a)
          /\ BCQ.actor_optimizer (self w') = BCQ.actor_optimizer a).
Proof.
  intros sized. split.
  - intros A state_dim action_dim image_obs cnn
      ma d t pn nc pf ma' d' t' pn' nc' pf' wa wb f w0.
    destruct (TD3_init_run sized state_dim action_dim ma image_obs d t pn nc pf cnn wa)
      as (wa' & a & Hinit_a & Hsa & Hsc & _).
    destruct (TD3_init_run sized state_dim action_dim ma' image_obs d' t' pn' nc' pf' cnn wb)
      as (wb' & b & Hinit_b & Hsa' & Hsc' & _).
    assert (Hc : same_configuration (Critic.params (TD3.critic b))
                   (Critic.params (TD3.critic (self (with_self w0 a))))).
    { eapply same_table_configuration; [|exact Hsc'|exact Hsc].
      rewrite Critic_shapes_names. apply Critic_names_distinct. }
    assert (Ha : same_configuration (Actor.params (TD3.actor b))
                   (Actor.params (TD3.actor (self (with_self w0 a))))).
    { eapply same_table_configuration; [|exact Hsa'|exact Hsa].
      rewrite Actor_shapes_names. apply Actor_names_distinct. }
    destruct (TD3_save_then_load f (with_self w0 a) b Hc Ha) as [out Hrun].
    exists wa', a, wb', b. eexists.
    split; [exact Hinit_a|]. split; [exact Hinit_b|].
    split; [exact Hrun|]. repeat split.
  - intros A state_dim action_dim image_obs cnn
      ma d t l ph pn nc pf ma' d' t' l' ph' pn' nc' pf' wa wb f w0.
    destruct (BCQ_init_run sized state_dim action_dim ma d t l ph pn nc pf cnn image_obs wa)
      as (wa' & a & Hinit_a & Hsa & Hsc & _).
    destruct (BCQ_init_run sized state_dim action_dim ma' d' t' l' ph' pn' nc' pf' cnn image_obs wb)
      as (wb' & b & Hinit_b & Hsa' & Hsc' & _).
    assert (Hc : same_configuration (Critic.params (BCQ.critic b))
                   (Critic.params (BCQ.critic (self (with_self w0 a))))).
    { eapply same_table_configuration; [|exact Hsc'|exact Hsc].
      rewrite Critic_shapes_names. apply Critic_names_distinct. }
    assert (Ha : same_configuration (Actor.params (BCQ.actor b))
                   (Actor.params (BCQ.actor (self (with_self w0 a))))).
    { eapply same_table_configuration; [|exact Hsa'|exact Hsa].
      rewrite Actor_shapes_names. apply Actor_names_distinct. }
    destruct (BCQ_save_then_load f (with_self w0 a) b Hc Ha) as [out Hrun].
    exists wa', a, wb', b. eexists.
    split; [exact Hinit_a|]. split; [exact Hinit_b|].
    split; [exact Hrun|]. repeat split.
Qed.

Lemma fresh_agents_exchange_checkpoints_witness :
  exists wa' a wb' b w',
    TD3_init 3 2 1 false 0.99 0.005 0.2 0.5 2 false (Toy.boot tt) = (wa', Ok a)
    /\ TD3_init 3 2 2 false 0.9 0.01 0.1 0.3 3 false
         {| self := tt; gen := 40; fs := ∅; stdout := [] |} = (wb', Ok b)
    /\ TD3.load "run1" (with_self (fst (TD3.save "run1" (with_self (Toy.boot Toy.td3) a))) b)
       = (w', Ok tt)
    /\ Critic.params (TD3.critic (self w')) = Critic.params (TD3.critic a)
    /\ TD3.critic_optimizer (self w') = TD3.critic_optimizer a
    /\ Actor.params (TD3.actor (self w')) = Actor.params (TD3.actor a)
    /\ TD3.actor_optimizer (self w') = TD3.actor_optimizer a.
Proof.
  apply (proj1 (@fresh_agents_exchange_checkpoints Toy.framework toy_initializers
                  toy_sized)).
Defined.

(** ** What [TD3.train] keeps and how it ends *)

(** X4. A call of [TD3.train], however it ends, writes no file and prints
    nothing, draws exactly one batch and one noise tensor from the
    generator, and leaves every hyperparameter and flag of the agent as it
    was; the target networks keep their parameter names. *)
Theorem TD3_train_frame `{Framework} rb bs (w : world TD3.t) :
  let a := self w in
  let w' := fst (TD3.train rb bs w) in
  let a' := self w' in
  fs w' = fs w /\ stdout w' = stdout w
  /\ gen w' = snd (TD3.drawn rb bs w)
  /\ TD3.max_action a' = TD3.max_action a
  /\ TD3.image_obs a' = TD3.image_obs a /\ TD3.cnn a' = TD3.cnn a
  /\ TD3.discount a' = TD3.discount a /\ TD3.tau a' = TD3.tau a
  /\ TD3.policy_noise a' = TD3.policy_noise a
  /\ TD3.noise_clip a' = TD3.noise_clip a
  /\ TD3.policy_freq a' = TD3.policy_freq a
  /\ keys (Critic.params (TD3.critic_target a'))
     = keys (Critic.params (TD3.critic_target a))
  /\ keys (Actor.params (TD3.actor_target a'))
     = keys (Actor.params (TD3.actor_target a)).
Proof.
  intros a w' a'. unfold a', w'.
  pose proof (TD3_train_run rb bs w) as Hrun.
  destruct (TD3.drawn rb bs w) as [[tr eps] g]. cbv zeta in Hrun.
  rewrite Hrun. clear Hrun.
  unfold TD3_delayed, TD3.update_actor_target, TD3.update_critic_target,
    TD3.step_actor, TD3.step_critic.
  destruct (optim_step (TD3.critic_optimizer _) _ _) as [theta co].
  cbn [TD3.policy_freq TD3.total_it TD3.set_critic TD3.set_total_it].
  destruct (TD3.policy_freq (self w) =? 0)%Z.
  - cbn. repeat split.
  - destruct (_ =? 0)%Z.
    + destruct (optim_step _ _ _) as [phi ao]. cbn.
      rewrite !soft_update_keys. repeat split.
    + cbn. repeat split.
Qed.

(** X5. [TD3.train] returns normally exactly when [policy_freq] is not
    zero.  With [policy_freq = 0] it raises [ZeroDivisionError], and it
    does so after the fact: the counter is incremented and the critic is
    stepped, while the actor, its optimizer and both targets are as before. *)
Theorem TD3_train_outcome `{Framework} rb bs (w : world TD3.t) :
  let a := self w in
  let a' := self (fst (TD3.train rb bs w)) in
  (TD3.policy_freq a <> 0%Z -> snd (TD3.train rb bs w) = Ok tt)
  /\ (TD3.policy_freq a = 0%Z ->
        snd (TD3.train rb bs w) = Raise ZeroDivisionError
        /\ TD3.total_it a' = (TD3.total_it a + 1)%Z
        /\ (Critic.params (TD3.critic a'), TD3.critic_optimizer a')
             = optim_step (TD3.critic_optimizer a) (TD3.train_critic_loss rb bs w)
                 (Critic.params (TD3.critic a))
        /\ TD3.actor a' = TD3.actor a
        /\ TD3.actor_optimizer a' = TD3.actor_optimizer a
        /\ TD3.actor_target a' = TD3.actor_target a
        /\ TD3.critic_target a' = TD3.critic_target a).
Proof.
  intros a a'. unfold a'.
  pose proof (TD3_train_run rb bs w) as Hrun.
  unfold TD3.train_critic_loss, TD3.train_target.
  destruct (TD3.drawn rb bs w) as [[tr eps] g]. cbv zeta in Hrun.
  set (a0 := TD3.set_total_it (self w) (TD3.total_it (self w) + 1)) in *.
  set (loss := TD3.critic_loss a0 _ _ _) in Hrun.
  pose proof (TD3_step_critic_frame a0 loss) as Hc. cbv zeta in Hc.
  destruct Hc as (Hcp & Hca & Hcao & Hcat & Hcct & Hcpf & Hcit & _).
  rewrite Hcpf in Hrun. change (TD3.policy_freq a0) with (TD3.policy_freq a) in Hrun.
  rewrite Hrun. clear Hrun.
  destruct (Z.eqb_spec (TD3.policy_freq a) 0) as [Hz|Hne].
  - split; [intros Hne; contradiction|]. intros _. cbn [fst snd self].
    repeat split; assumption.
  - split; [|intros Hz; contradiction]. intros _.
    destruct (_ =? 0)%Z; reflexivity.
Qed.

(** ** Shapes of what the networks return *)

Lemma linear1_length (weight bias x : tensor) :
  length (linear1 weight bias x) = length bias.
Proof.
  revert weight. induction bias as [|b bias IH]; intros weight; simpl;
    [reflexivity|]. rewrite IH. reflexivity.
Qed.

Lemma linear_rows (weight bias : tensor) (xs : batch) :
  length (linear weight bias xs) = length xs
  /\ Forall (fun row => length row = length bias) (linear weight bias xs).
Proof.
  unfold linear. split; [apply length_map|].
  apply Forall_map_intro. intros x. apply linear1_length.
Qed.

Lemma scaled_tanh_rows (m : R) (t : batch) (n : nat) :
  Forall (fun row => length row = n) t ->
  Forall (fun row => length row = n) (List.map (tscale m) (List.map ttanh t)).
Proof.
  induction 1 as [|row t Hrow _ IH]; simpl; constructor; [|exact IH].
  unfold tscale, ttanh. rewrite !length_map. exact Hrow.
Qed.

Lemma cat1_rows (a b : batch) :
  length a = length b -> length (cat1 a b) = length a.
Proof.
  intros Hlen. unfold cat1, map2, batch, tensor in *.
  rewrite List.length_map, List.length_combine, Hlen. apply Nat.min_id.
Qed.

Section OutputShapes.
Context `{Framework}.

Lemma Actor_forward_rows (a : Actor.t) (state : batch) :
  Forall (fun row => length row = length (param (Actor.params a) "l2.bias"))
    (Actor.forward a state)
  /\ (Actor.image_obs a && Actor.cnn a = false ->
      length (Actor.forward a state) = length state).
Proof.
  unfold Actor.forward. split.
  - apply scaled_tanh_rows, linear_rows.
  - intros Hflat. unfold Actor.fcn. rewrite Hflat.
    rewrite !length_map. rewrite (proj1 (linear_rows _ _ _)).
    rewrite length_map. rewrite (proj1 (linear_rows _ _ _)).
    rewrite length_map. apply (proj1 (linear_rows _ _ _)).
Qed.

Lemma Critic_head_rows (c : Critic.t) (pre : string) (wk bk : string)
    (state action : batch) :
  Critic.image_obs c && Critic.cnn c = false ->
  length state = length action ->
  length (linear (param (Critic.params c) wk) (param (Critic.params c) bk)
            (Critic.fcn c pre (Critic.state_action c state action)))
  = length state.
Proof.
  intros Hflat Hlen. rewrite (proj1 (linear_rows _ _ _)).
  unfold Critic.fcn, Critic.state_action. rewrite Hflat.
  rewrite length_map, (proj1 (linear_rows _ _ _)).
  apply cat1_rows, Hlen.
Qed.

Lemma TD3_select_action_length (agent : TD3.t) (state : batch) :
  Actor.image_obs (TD3.actor agent) && Actor.cnn (TD3.actor agent) = false ->
  length (TD3.select_action agent state)
  = length (param (Actor.params (TD3.actor agent)) "l2.bias").
Proof.
  intros Hflat. unfold TD3.select_action.
  destruct (Actor_forward_rows (TD3.actor agent) [concat state]) as [Hrow Hlen].
  specialize (Hlen Hflat).
  destruct (Actor.forward (TD3.actor agent) [concat state]) as [|row [|? ?]];
    try discriminate.
  inversion Hrow; subst. simpl. rewrite app_nil_r. assumption.
Qed.

End OutputShapes.

Lemma param_length (sd : state_dict) (k : string) :
  length (param sd k) = size_in (shapes sd) k.
Proof.
  unfold param. induction sd as [|[k' t] sd IH]; simpl; [reflexivity|].
  destruct (String.eqb k k'); [reflexivity|exact IH].
Qed.

Lemma Actor_shapes_l2_bias state_dim action_dim image_obs cnn :
  size_in (Actor_shapes state_dim action_dim image_obs cnn) "l2.bias" = action_dim.
Proof. destruct image_obs, cnn; reflexivity. Qed.

Lemma Critic_shapes_last_bias state_dim action_dim image_obs cnn :
  size_in (Critic_shapes state_dim action_dim image_obs cnn) "l2.bias" = 1
  /\ size_in (Critic_shapes state_dim action_dim image_obs cnn) "l4.bias" = 1.
Proof. destruct image_obs, cnn; split; reflexivity. Qed.

Lemma shapes_filled (table : list (string * nat)) : shapes (filled table) = table.
Proof.
  unfold shapes, filled. induction table as [|[k n] table IH]; simpl;
    [reflexivity|].
  rewrite repeat_length. f_equal. exact IH.
Qed.

(** X10. Take a TD3 agent without the convolutional trunk whose actor and
    critic have the parameter names and sizes their constructors give them
    for [state_dim] and [action_dim].  On an observation of the width the
    first layer takes, [TD3.select_action] returns [action_dim] entries.
    On a batch of such states [Actor.forward] returns one row of
    [action_dim] entries per state; with one action of [action_dim] entries
    per state, [Critic.Q1] is the first head of [Critic.forward], and both
    heads return one row of one entry per state. *)
Theorem network_output_shapes `{Framework} (agent : TD3.t)
    (state_dim action_dim : nat) (obs state action : batch) :
  let a := TD3.actor agent in
  let c := TD3.critic agent in
  Actor.image_obs a && Actor.cnn a = false ->
  Critic.image_obs c && Critic.cnn c = false ->
  shapes (Actor.params a)
    = Actor_shapes state_dim action_dim (Actor.image_obs a) (Actor.cnn a) ->
  shapes (Critic.params c)
    = Critic_shapes state_dim action_dim (Critic.image_obs c) (Critic.cnn c) ->
  length (concat obs) = obs_width state_dim (Actor.image_obs a) ->
  rows_of (obs_width state_dim (Actor.image_obs a)) state ->
  rows_of (obs_width state_dim (Critic.image_obs c)) state ->
  rows_of action_dim action ->
  length state = length action ->
  length (TD3.select_action agent obs) = action_dim
  /\ (length (Actor.forward a state) = length state
      /\ rows_of action_dim (Actor.forward a state))
  /\ Critic.Q1 c state action = fst (Critic.forward c state action)
  /\ (length (fst (Critic.forward c state action)) = length state
      /\ rows_of 1 (fst (Critic.forward c state action)))
  /\ (length (snd (Critic.forward c state action)) = length state
      /\ rows_of 1 (snd (Critic.forward c state action))).
Proof.
  intros a c Hflat Hflatc Hsa Hsc Hobs Hstate Hstatec Haction Hlen.
  assert (Hl2 : length (param (Actor.params a) "l2.bias") = action_dim)
    by (rewrite param_length, Hsa; apply Actor_shapes_l2_bias).
  destruct (Critic_shapes_last_bias state_dim action_dim
              (Critic.image_obs c) (Critic.cnn c)) as [Hq1 Hq2].
  assert (Hc2 : length (param (Critic.params c) "l2.bias") = 1)
    by (rewrite param_length, Hsc; exact Hq1).
  assert (Hc4 : length (param (Critic.params c) "l4.bias") = 1)
    by (rewrite param_length, Hsc; exact Hq2).
  split; [|split; [|split; [|split]]].
  - rewrite <- Hl2. apply TD3_select_action_length, Hflat.
  - destruct (Actor_forward_rows a state) as [Hrow Hrows].
    split; [apply Hrows, Hflat|]. unfold rows_of. rewrite <- Hl2. exact Hrow.
  - reflexivity.
  - unfold Critic.forward. cbn [fst snd]. split.
    + rewrite (proj1 (linear_rows _ _ _)), length_map.
      apply (Critic_head_rows c "fcn_1" _ _ state action Hflatc Hlen).
    + unfold rows_of. rewrite <- Hc2. apply linear_rows.
  - unfold Critic.forward. cbn [fst snd]. split.
    + rewrite (proj1 (linear_rows _ _ _)), length_map.
      apply (Critic_head_rows c "fcn_2" _ _ state action Hflatc Hlen).
    + unfold rows_of. rewrite <- Hc4. apply linear_rows.
Qed.

Lemma network_output_shapes_witness :
  let state := [[1; 2; 3]; [4; 5; 6]]%R in
  let action := [[0.5; 0.25]; [0; 1]]%R in
  length (TD3.select_action Sized.td3 [[1]; [2]; [3]]%R) = 2
  /\ (length (Actor.forward Sized.actor state) = 2
      /\ rows_of 2 (Actor.forward Sized.actor state))
  /\ Critic.Q1 Sized.critic state action
     = fst (Critic.forward Sized.critic state action)
  /\ (length (fst (Critic.forward Sized.critic state action)) = 2
      /\ rows_of 1 (fst (Critic.forward Sized.critic state action)))
  /\ (length (snd (Critic.forward Sized.critic state action)) = 2
      /\ rows_of 1 (snd (Critic.forward Sized.critic state action))).
Proof.
  intros state action.
  apply (@network_output_shapes Toy.framework Sized.td3 3 2
           [[1]; [2]; [3]]%R state action).
  - reflexivity.
  - reflexivity.
  - apply shapes_filled.
  - apply shapes_filled.
  - reflexivity.
  - repeat constructor.
  - repeat constructor.
  - repeat constructor.
  - reflexivity.
Defined.

Section FreshActions.
Context `{Framework} `{!Initializers}.
Hypothesis sized : sized_initializers.

Local Opaque Nat.mul Nat.pow Nat.add.

Lemma TD3_init_actor {A} state_dim action_dim max_action image_obs
    discount tau policy_noise noise_clip policy_freq cnn (w : world A) :
  exists w' agent,
    TD3_init state_dim action_dim max_action image_obs discount tau
      policy_noise noise_clip policy_freq cnn w = (w', Ok agent)
    /\ shapes (Actor.params (TD3.actor agent))
       = Actor_shapes state_dim action_dim image_obs cnn
    /\ Actor.image_obs (TD3.actor agent) = image_obs
    /\ Actor.cnn (TD3.actor agent) = cnn
    /\ Actor.max_action (TD3.actor agent) = max_action.
Proof.
  unfold TD3_init, bind.
  destruct (Actor_init_names state_dim action_dim max_action image_obs cnn w)
    as (w1 & a & Ha & _ & Hio & Hcnn & _ & Hma & _).
  destruct (Actor_init_shapes sized state_dim action_dim max_action image_obs cnn w)
    as (w1' & a' & Ha' & Hs).
  rewrite Ha in Ha'. inversion Ha'; subst w1' a'. rewrite Ha.
  destruct (Critic_init_names state_dim action_dim image_obs cnn w1)
    as (w2 & c & -> & _).
  eexists _, _. split; [reflexivity|]. cbn. auto.
Qed.

End FreshActions.

(** X11. With initializers of the layers' sizes, a TD3 agent constructed
    without the convolutional trunk selects an action of exactly
    [action_dim] entries for every observation of [state_dim] entries
    ([state_dim ** 2] with [image_obs]). *)
Theorem fresh_agent_action_shape `{Framework} `{!Initializers}
    {A} state_dim action_dim max_action image_obs
    discount tau policy_noise noise_clip policy_freq (w : world A) :
  sized_initializers ->
  exists w' agent,
    TD3_init state_dim action_dim max_action image_obs discount tau
      policy_noise noise_clip policy_freq false w = (w', Ok agent)
    /\ forall obs,
         length (concat obs) = obs_width state_dim image_obs ->
         length (TD3.select_action agent obs) = action_dim.
Proof.
  intros sized.
  destruct (TD3_init_actor sized state_dim action_dim max_action image_obs
              discount tau policy_noise noise_clip policy_freq false w)
    as (w' & agent & Hinit & Hs & Hio & Hcnn & Hma).
  exists w', agent. split; [exact Hinit|]. intros obs _.
  assert (Hflat : Actor.image_obs (TD3.actor agent)
                  && Actor.cnn (TD3.actor agent) = false)
    by (rewrite Hcnn; apply andb_false_r).
  rewrite (TD3_select_action_length agent obs Hflat).
  rewrite param_length, Hs. apply Actor_shapes_l2_bias.
Qed.

Lemma fresh_agent_action_shape_witness :
  exists w' agent,
    TD3_init 3 2 1 false 0.99 0.005 0.2 0.5 2 false (Toy.boot tt) = (w', Ok agent)
    /\ forall obs,
         length (concat obs) = 3 ->
         length (TD3.select_action agent obs) = 2.
Proof.
  apply (@fresh_agent_action_shape Toy.framework toy_initializers
           unit 3 2 1%R false 0.99%R 0.005%R 0.2%R 0.5%R 2%Z (Toy.boot tt) toy_sized).
Defined.

(** ** How [load] fails *)





(** X13. [TD3.load] is not atomic: when the critic's two files load and
    the actor's file does not exist, it raises [FileNotFoundError] after it
    has replaced the critic, the critic optimizer's state and the critic
    target; the actor, its optimizer and the actor target are untouched. *)
Theorem TD3_load_is_not_atomic `{Framework} f (w : world TD3.t) csd theta co :
  fs w !! (f ++ "_critic")%string = Some (ParamBlob csd) ->
  load_state_dict (Critic.params (TD3.critic (self w))) csd = Ok theta ->
  fs w !! (f ++ "_critic_optimizer")%string = Some (OptimBlob co) ->
  fs w !! (f ++ "_actor")%string = None ->
  let c := Critic.with_params (TD3.critic (self w)) theta in
  TD3.load f w
  = (with_self w (TD3.set_critic_target (TD3.set_critic (self w) c co) c),
     Raise FileNotFoundError).
Proof.
  intros H1 H2 H3 H4 c.
  unfold TD3.load, bind, torch_load, get_self, lift, modify; simpl.
  rewrite H1; simpl. rewrite H2; simpl. rewrite H3; simpl. rewrite H4.
  reflexivity.
Qed.

Lemma TD3_load_is_not_atomic_witness :
  let files : gmap string blob :=
    <[("m" ++ "_critic_optimizer")%string := OptimBlob 9]>
      (<[("m" ++ "_critic")%string := ParamBlob (Critic.params Toy.critic1)]> ∅) in
  let w := {| self := Toy.td3; gen := 0; fs := files; stdout := [] |} in
  TD3.load "m" w
  = (with_self w (TD3.set_critic_target (TD3.set_critic Toy.td3 Toy.critic1 9)
                    Toy.critic1),
     Raise FileNotFoundError).
Proof.
  intros files w.
  apply (@TD3_load_is_not_atomic Toy.framework "m" w
           (Critic.params Toy.critic1) (Critic.params Toy.critic1) 9).
  - unfold w, files. cbn [fs].
    rewrite lookup_insert_ne by (apply suffix_differs; discriminate).
    apply lookup_insert_eq.
  - apply load_state_dict_same. apply layers_configuration, Critic_names_distinct.
  - unfold w, files. cbn [fs]. apply lookup_insert_eq.
  - unfold w, files. cbn [fs].
    rewrite !lookup_insert_ne by (apply suffix_differs; discriminate).
    apply lookup_empty.
Defined.

(** ** What [load] and [save] leave alone *)

Section LoadFrame.
Context `{Framework}.




End LoadFrame.


(** ** Checkpoints over time and across agents *)

Section CheckpointFacts.
Context `{Framework}.

Lemma same_configuration_refl (sd : state_dict) :
  List.NoDup (keys sd) -> same_configuration sd sd.
Proof. intros Hnd. split; [exact Hnd|reflexivity]. Qed.

Lemma TD3_loaded_same (a : TD3.t) :
  TD3_loaded a (Critic.params (TD3.critic a)) (TD3.critic_optimizer a)
    (Actor.params (TD3.actor a)) (TD3.actor_optimizer a)
  = TD3.set_actor_target (TD3.set_critic_target a (TD3.critic a)) (TD3.actor a).
Proof. destruct a as [[] ? ? [] ? ? ? ? ? ? ? ? ? ? ?]. reflexivity. Qed.

Lemma BCQ_loaded_same (a : BCQ.t) :
  BCQ_loaded a (Critic.params (BCQ.critic a)) (BCQ.critic_optimizer a)
    (Actor.params (BCQ.actor a)) (BCQ.actor_optimizer a)
  = BCQ.set_actor_target (BCQ.set_critic_target a (BCQ.critic a)) (BCQ.actor a).
Proof. destruct a as [[] ? ? [] ? ? ? ? ? ? ? ? ? ? ? ? ? ? ?]. reflexivity. Qed.

(** Writing a checkpoint over one of the same prefix leaves the later one
    alone. *)
Lemma checkpoint_overwrite f csd co asd ao csd' co' asd' ao'
    (files : gmap string blob) :
  checkpoint f csd co asd ao (checkpoint f csd' co' asd' ao' files)
  = checkpoint f csd co asd ao files.
Proof.
  apply map_eq. intros name. unfold checkpoint.
  rewrite !lookup_insert. repeat case_decide; reflexivity.
Qed.

End CheckpointFacts.

(** X15. For an agent whose networks have distinct parameter names,
    [save] followed by [load] of the same prefix on the same agent returns
    and changes exactly two things in it: each target network becomes a
    copy of its online network, so whatever the targets held is lost. *)
Theorem save_load_resets_targets `{Framework} :
  (forall f (w : world TD3.t),
     List.NoDup (keys (Critic.params (TD3.critic (self w)))) ->
     List.NoDup (keys (Actor.params (TD3.actor (self w)))) ->
     exists w',
       TD3.load f (fst (TD3.save f w)) = (w', Ok tt)
       /\ self w'
          = TD3.set_actor_target
              (TD3.set_critic_target (self w) (TD3.critic (self w)))
              (TD3.actor (self w)))
  /\ (forall f (w : world BCQ.t),
        List.NoDup (keys (Critic.params (BCQ.critic (self w)))) ->
        List.NoDup (keys (Actor.params (BCQ.actor (self w)))) ->
        exists w',
          BCQ.load f (fst (BCQ.save f w)) = (w', Ok tt)
          /\ self w'
             = BCQ.set_actor_target
                 (BCQ.set_critic_target (self w) (BCQ.critic (self w)))
                 (BCQ.actor (self w))).
Proof.
  split; intros f w Hc Ha.
  - destruct (TD3_save_then_load f w (self w)
                (same_configuration_refl _ Hc) (same_configuration_refl _ Ha))
      as [out Hrun].
    eexists. split; [exact Hrun|]. cbn [self]. apply TD3_loaded_same.
  - destruct (BCQ_save_then_load f w (self w)
                (same_configuration_refl _ Hc) (same_configuration_refl _ Ha))
      as [out Hrun].
    eexists. split; [exact Hrun|]. cbn [self]. apply BCQ_loaded_same.
Qed.

Lemma save_load_resets_targets_witness :
  exists w',
    TD3.load "model"
      (fst (TD3.save "model"
              (Toy.boot (TD3.set_critic_target
                           (TD3.set_actor_target Toy.td3_later Toy.actor0)
                           Toy.critic0))))
    = (w', Ok tt)
    /\ TD3.actor_target (self w') = Toy.actor1
    /\ TD3.critic_target (self w') = Toy.critic1.
Proof.
  destruct (proj1 (@save_load_resets_targets Toy.framework) "model"
              (Toy.boot (TD3.set_critic_target
                           (TD3.set_actor_target Toy.td3_later Toy.actor0)
                           Toy.critic0))
              (Critic_names_distinct false false)
              (Actor_names_distinct false false))
    as (w' & Hload & Hself).
  exists w'. split; [exact Hload|]. rewrite Hself. split; reflexivity.
Defined.

(** X16. Saving twice under one prefix leaves exactly the files of the
    second save: nothing of the first checkpoint survives beside it. *)
Theorem save_replaces_checkpoint `{Framework} :
  (forall f (w : world TD3.t) (b : TD3.t),
     fs (fst (TD3.save f (with_self (fst (TD3.save f w)) b)))
     = fs (fst (TD3.save f (with_self w b))))
  /\ (forall f (w : world BCQ.t) (b : BCQ.t),
        fs (fst (BCQ.save f (with_self (fst (BCQ.save f w)) b)))
        = fs (fst (BCQ.save f (with_self w b)))).
Proof.
  split; intros f w b.
  - rewrite !TD3_save_run. cbn [fst fs self with_self].
    apply checkpoint_overwrite.
  - rewrite !BCQ_save_run. cbn [fst fs self with_self].
    apply checkpoint_overwrite.
Qed.

(** X18. The two agents share one checkpoint format: the files [TD3.save]
    wrote load into a BCQ agent whose critic and actor have the saved
    configuration, and give it the TD3 agent's critic, actor and optimizer
    states. *)
Theorem BCQ_loads_TD3_checkpoint `{Framework} f (w : world TD3.t)
    (wb : world BCQ.t) :
  fs wb = fs (fst (TD3.save f w)) ->
  same_configuration (Critic.params (BCQ.critic (self wb)))
    (Critic.params (TD3.critic (self w))) ->
  same_configuration (Actor.params (BCQ.actor (self wb)))
    (Actor.params (TD3.actor (self w))) ->
  exists w',
    BCQ.load f wb = (w', Ok tt)
    /\ Critic.params (BCQ.critic (self w')) = Critic.params (TD3.critic (self w))
    /\ BCQ.critic_optimizer (self w') = TD3.critic_optimizer (self w)
    /\ Actor.params (BCQ.actor (self w')) = Actor.params (TD3.actor (self w))
    /\ BCQ.actor_optimizer (self w') = TD3.actor_optimizer (self w)
    /\ BCQ.vae (self w') = BCQ.vae (self wb).
Proof.
  intros Hfs Hc Ha.
  destruct (checkpoint_lookup f
              (Critic.params (TD3.critic (self w))) (TD3.critic_optimizer (self w))
              (Actor.params (TD3.actor (self w))) (TD3.actor_optimizer (self w))
              (fs w)) as (L1 & L2 & L3 & L4).
  assert (Hfs1 : fs wb = checkpoint f
              (Critic.params (TD3.critic (self w))) (TD3.critic_optimizer (self w))
              (Actor.params (TD3.actor (self w))) (TD3.actor_optimizer (self w))
              (fs w)) by (rewrite Hfs, TD3_save_run; reflexivity).
  rewrite <- Hfs1 in L1, L2, L3, L4.
  eexists. split.
  - apply (BCQ_load_run f wb _ _ _ _ _ _
             L1 (load_state_dict_same _ _ Hc) L2 L3 (load_state_dict_same _ _ Ha) L4).
  - repeat split.
Qed.

Lemma BCQ_loads_TD3_checkpoint_witness :
  let wb : @world Toy.framework BCQ.t :=
    {| self := Toy.bcq; gen := 0%nat;
       fs := fs (fst (TD3.save "model" (Toy.boot Toy.td3_later)));
       stdout := [] |} in
  exists w',
    BCQ.load "model" wb = (w', Ok tt)
    /\ Critic.params (BCQ.critic (self w')) = Critic.params Toy.critic1
    /\ BCQ.critic_optimizer (self w') = 5
    /\ Actor.params (BCQ.actor (self w')) = Actor.params Toy.actor1
    /\ BCQ.actor_optimizer (self w') = 5
    /\ BCQ.vae (self w') = Toy.vae0.
Proof.
  intros wb.
  apply (@BCQ_loads_TD3_checkpoint Toy.framework "model" (Toy.boot Toy.td3_later) wb).
  - reflexivity.
  - apply layers_configuration, Critic_names_distinct.
  - apply layers_configuration, Actor_names_distinct.
Defined.

(** ** Repeated calls of [TD3.train] *)

Lemma no_multiple_below (x pf : Z) :
  (0 < x < Z.abs pf)%Z -> (pf =? 0)%Z = false /\ (x mod pf =? 0)%Z = false.
Proof.
  intros Hx. assert (Hpf : pf <> 0%Z) by lia.
  split; [apply Z.eqb_neq, Hpf|]. apply Z.eqb_neq. intros Hmod.
  apply Z.mod_divide in Hmod; [|exact Hpf].
  apply Z.divide_abs_l in Hmod.
  apply Z.divide_pos_le in Hmod; lia.
Qed.

Section TD3Calls.
Context `{Framework}.

(** One call that returns: the counter moves by one; below the first
    multiple of [policy_freq] nothing but the critic moves. *)
Lemma TD3_train_call rb bs (w : world TD3.t) :
  TD3.policy_freq (self w) <> 0%Z ->
  exists w',
    TD3.train rb bs w = (w', Ok tt)
    /\ TD3.total_it (self w') = (TD3.total_it (self w) + 1)%Z
    /\ TD3.policy_freq (self w') = TD3.policy_freq (self w)
    /\ ((0 < TD3.total_it (self w) + 1 < Z.abs (TD3.policy_freq (self w)))%Z ->
        TD3.actor (self w') = TD3.actor (self w)
        /\ TD3.actor_target (self w') = TD3.actor_target (self w)
        /\ TD3.critic_target (self w') = TD3.critic_target (self w)).
Proof.
  intros Hpf.
  pose proof (TD3_train_run rb bs w) as Hrun.
  destruct (TD3.drawn rb bs w) as [[tr eps] g]. cbv zeta in Hrun.
  set (a0 := TD3.set_total_it (self w) (TD3.total_it (self w) + 1)) in *.
  set (loss := TD3.critic_loss a0 _ _ _) in Hrun.
  pose proof (TD3_step_critic_frame a0 loss) as Hc. cbv zeta in Hc.
  set (a1 := TD3.step_critic a0 loss) in *.
  destruct Hc as (_ & Hca & _ & Hcat & Hcct & Hcpf & Hcit & _).
  change (TD3.policy_freq a0) with (TD3.policy_freq (self w)) in Hcpf.
  change (TD3.total_it a0) with (TD3.total_it (self w) + 1)%Z in Hcit.
  rewrite Hcpf, Hcit in Hrun. rewrite Hrun. clear Hrun.
  destruct (Z.eqb_spec (TD3.policy_freq (self w)) 0) as [Hz|_]; [contradiction|].
  destruct (_ mod _ =? 0)%Z eqn:Hmod.
  - eexists. split; [reflexivity|]. cbn [self].
    pose proof (TD3_step_actor_frame a1
                  (TD3.actor_loss a1 (TD3.as_images a0 (tr_state tr)))) as Ha.
    cbv zeta in Ha. destruct Ha as (_ & _ & _ & _ & _ & Hait & _).
    unfold TD3_delayed. cbn. unfold TD3.step_actor.
    destruct (optim_step _ _ _) as [phi ao]. cbn.
    split; [exact Hcit|]. split; [exact Hcpf|].
    intros Hbelow. apply no_multiple_below in Hbelow. destruct Hbelow as [_ Hb].
    rewrite Hb in Hmod. discriminate.
  - eexists. split; [reflexivity|]. cbn [self].
    split; [exact Hcit|]. split; [exact Hcpf|]. intros _. auto.
Qed.

Lemma TD3_train_calls rb bs (n : nat) (w : world TD3.t) :
  TD3.policy_freq (self w) <> 0%Z ->
  exists w',
    for_range n (TD3.train rb bs) w = (w', Ok tt)
    /\ TD3.total_it (self w') = (TD3.total_it (self w) + Z.of_nat n)%Z
    /\ ((0 <= TD3.total_it (self w))%Z ->
        (TD3.total_it (self w) + Z.of_nat n < Z.abs (TD3.policy_freq (self w)))%Z ->
        TD3.actor (self w') = TD3.actor (self w)
        /\ TD3.actor_target (self w') = TD3.actor_target (self w)
        /\ TD3.critic_target (self w') = TD3.critic_target (self w)).
Proof.
  revert w. induction n as [|n IH]; intros w Hpf.
  - exists w. split; [reflexivity|]. split; [simpl; lia|]. auto.
  - destruct (TD3_train_call rb bs w Hpf) as (w1 & Hrun & Hit & Hpf1 & Hkeep).
    assert (Hpf' : TD3.policy_freq (self w1) <> 0%Z) by (rewrite Hpf1; exact Hpf).
    destruct (IH w1 Hpf') as (w' & Hrest & Hit' & Hkeep').
    exists w'. split.
    + cbn [for_range]. unfold bind. rewrite Hrun. exact Hrest.
    + split; [rewrite Hit', Hit; lia|].
      intros H0 Hbelow.
      destruct Hkeep as (Ha & Hat & Hct); [lia|].
      destruct Hkeep' as (Ha' & Hat' & Hct'); [lia|rewrite Hit, Hpf1; lia|].
      rewrite Ha', Hat', Hct'. auto.
Qed.

End TD3Calls.

(** X19. With [policy_freq] not zero, [n] calls of [TD3.train] in a row
    all return and leave the counter at its old value plus [n].  While the
    counter stays below the absolute value of [policy_freq], as in the
    first calls on a fresh agent, the actor and both target networks are
    exactly what they were before the first of those calls. *)
Theorem TD3_train_calls_count `{Framework} rb bs (n : nat) (w : world TD3.t) :
  TD3.policy_freq (self w) <> 0%Z ->
  exists w',
    for_range n (TD3.train rb bs) w = (w', Ok tt)
    /\ TD3.total_it (self w') = (TD3.total_it (self w) + Z.of_nat n)%Z
    /\ ((0 <= TD3.total_it (self w))%Z ->
        (TD3.total_it (self w) + Z.of_nat n < Z.abs (TD3.policy_freq (self w)))%Z ->
        TD3.actor (self w') = TD3.actor (self w)
        /\ TD3.actor_target (self w') = TD3.actor_target (self w)
        /\ TD3.critic_target (self w') = TD3.critic_target (self w)).
Proof. apply TD3_train_calls. Qed.

Lemma TD3_train_calls_count_witness :
  exists w',
    for_range 1 (TD3.train [Toy.batch0] 100) (Toy.boot Toy.td3) = (w', Ok tt)
    /\ TD3.total_it (self w') = 1%Z
    /\ TD3.actor (self w') = Toy.actor0
    /\ TD3.actor_target (self w') = Toy.actor0
    /\ TD3.critic_target (self w') = Toy.critic0.
Proof.
  assert (Hpf : TD3.policy_freq (self (Toy.boot Toy.td3)) <> 0%Z)
    by (simpl; discriminate).
  destruct (@TD3_train_calls_count Toy.framework [Toy.batch0] 100 1
              (Toy.boot Toy.td3) Hpf) as (w' & Hrun & Hit & Hkeep).
  exists w'. split; [exact Hrun|]. split; [exact Hit|].
  apply Hkeep; simpl; lia.
Defined.

(** ** Observations of the wrong width, and observations with a NaN *)

Lemma F32_param_length (sd : F32.state_dict) (k : string) :
  length (F32.param sd k) = size_in (F32.shapes sd) k.
Proof.
  unfold F32.param. induction sd as [|[k' t] sd IH]; simpl; [reflexivity|].
  destruct (String.eqb k k'); [reflexivity|exact IH].
Qed.

Lemma F32_add_nan_l (y : F32.float) : F32.add F32.nan y = F32.nan.
Proof. destruct y; reflexivity. Qed.

Lemma F32_add_nan_r (x : F32.float) : F32.add x F32.nan = F32.nan.
Proof. destruct x; reflexivity. Qed.

Lemma F32_mul_nan_r (x : F32.float) : F32.mul x F32.nan = F32.nan.
Proof. destruct x; reflexivity. Qed.

Lemma F32_dot_from_nan (ps : list (F32.float * F32.float)) :
  fold_left (fun acc p => F32.add acc (F32.mul (fst p) (snd p))) ps F32.nan
  = F32.nan.
Proof.
  induction ps as [|p ps IH]; cbn [fold_left]; [reflexivity|].
  rewrite F32_add_nan_l. exact IH.
Qed.

(** A NaN in the input makes the sum of the products a NaN. *)
Lemma F32_dot_nan (row x : F32.tensor) :
  length row = length x -> In F32.nan x -> F32.dot row x = F32.nan.
Proof.
  unfold F32.dot. generalize F32.zero as acc. revert row.
  induction x as [|v x IH]; intros row acc Hlen Hin; [destruct Hin|].
  destruct row as [|r row]; [discriminate|]. cbn [combine fold_left fst snd].
  destruct Hin as [->|Hin].
  - rewrite F32_mul_nan_r, F32_add_nan_r. apply F32_dot_from_nan.
  - apply IH; [simpl in Hlen; lia|exact Hin].
Qed.

Lemma F32_weight_row (weight : F32.tensor) (n rows i : nat) :
  length weight = rows * n -> i < rows ->
  length (firstn n (skipn (i * n) weight)) = n.
Proof.
  intros Hlen Hi. rewrite length_firstn, length_skipn, Hlen. nia.
Qed.

Lemma Forall_eq_repeat {A} (v : A) (l : list A) :
  Forall (fun y => y = v) l -> l = repeat v (length l).
Proof.
  induction 1 as [|y l -> _ IH]; simpl; [reflexivity|]. f_equal. exact IH.
Qed.

(** [nn.Linear] on a row: it returns exactly when the row has the width of
    the weight's rows, and then one entry per bias entry, each a NaN when
    the row holds a NaN. *)
Lemma F32_linear1_run (weight bias x : F32.tensor) :
  (length weight = length bias * length x ->
   exists out, F32.linear1 weight bias x = Ok out
     /\ length out = length bias
     /\ (In F32.nan x -> out = repeat F32.nan (length bias)))
  /\ (length weight <> length bias * length x ->
      F32.linear1 weight bias x = Raise RuntimeError).
Proof.
  unfold F32.linear1. split; intros Hw.
  - rewrite (proj2 (Nat.eqb_eq _ _) Hw). eexists. split; [reflexivity|].
    assert (Hlen : length
              (F32.map2 F32.add
                 (List.map
                    (fun i => F32.dot
                       (firstn (length x) (skipn (i * length x) weight)) x)
                    (seq 0 (length bias))) bias) = length bias).
    { unfold F32.map2.
      rewrite List.length_map, List.length_combine, List.length_map,
        List.length_seq.
      apply Nat.min_id. }
    split; [exact Hlen|]. intros Hnan.
    rewrite <- Hlen at 2. apply Forall_eq_repeat.
    unfold F32.map2. apply List.Forall_forall. intros y Hy.
    apply in_map_iff in Hy. destruct Hy as ([d b] & <- & Hin).
    apply in_combine_l in Hin. apply in_map_iff in Hin.
    destruct Hin as (i & <- & Hi). apply in_seq in Hi. cbn [fst snd].
    rewrite F32_dot_nan; [apply F32_add_nan_l| |exact Hnan].
    apply (F32_weight_row weight (length x) (length bias) i Hw). lia.
  - rewrite (proj2 (Nat.eqb_neq _ _) Hw). reflexivity.
Qed.

Lemma F32_relu_nan (n : nat) :
  F32.relu (repeat F32.nan n) = repeat F32.nan n.
Proof.
  unfold F32.relu. induction n as [|n IH]; simpl; [reflexivity|].
  rewrite IH. reflexivity.
Qed.

Lemma F32_linear_one (weight bias x : F32.tensor) :
  F32.linear weight bias [x]
  = F32.bind (F32.linear1 weight bias x) (fun y => Ok [y]).
Proof.
  unfold F32.linear. simpl. destruct (F32.linear1 weight bias x); reflexivity.
Qed.

Lemma Actor_shapes_flat state_dim action_dim image_obs cnn :
  image_obs && cnn = false ->
  let table := Actor_shapes state_dim action_dim image_obs cnn in
  size_in table "fcn.0.weight" = 256 * obs_width state_dim image_obs
  /\ size_in table "fcn.0.bias" = 256
  /\ size_in table "l1.weight" = 256 * 256
  /\ size_in table "l1.bias" = 256
  /\ size_in table "l2.weight" = action_dim * 256
  /\ size_in table "l2.bias" = action_dim.
Proof.
  intros Hflat table. unfold table, Actor_shapes. rewrite Hflat.
  repeat split; reflexivity.
Qed.

Section Widths32.
Context `{F32.Primitives}.

Local Opaque Nat.mul Nat.pow.

(** [Actor.forward] without the convolutional trunk on one state row. *)
Lemma F32_Actor_forward_row (a : F32.Actor.t) (state_dim action_dim : nat)
    (x : F32.tensor) :
  F32.Actor.image_obs a && F32.Actor.cnn a = false ->
  F32.shapes (F32.Actor.params a)
    = Actor_shapes state_dim action_dim (F32.Actor.image_obs a) (F32.Actor.cnn a) ->
  (length x = obs_width state_dim (F32.Actor.image_obs a) ->
   exists row, F32.Actor.forward a [x] = Ok [row]
     /\ length row = action_dim
     /\ (In F32.nan x -> row = repeat F32.nan action_dim))
  /\ (length x <> obs_width state_dim (F32.Actor.image_obs a) ->
      F32.Actor.forward a [x] = Raise RuntimeError).
Proof.
  intros Hflat Hs.
  destruct (Actor_shapes_flat state_dim action_dim _ _ Hflat)
    as (Hw0 & Hb0 & Hw1 & Hb1 & Hw2 & Hb2).
  rewrite <- Hs, <- F32_param_length in Hw0, Hb0, Hw1, Hb1, Hw2, Hb2.
  unfold F32.Actor.forward, F32.Actor.fcn. rewrite Hflat.
  cbn [F32.bind]. rewrite F32_linear_one.
  destruct (F32_linear1_run
              (F32.param (F32.Actor.params a) "fcn.0.weight")
              (F32.param (F32.Actor.params a) "fcn.0.bias") x) as [Hok0 Hbad0].
  rewrite Hw0, Hb0 in Hok0, Hbad0.
  split; intros Hx.
  - destruct Hok0 as (h0 & -> & Hlen0 & Hnan0); [rewrite Hx; reflexivity|].
    cbn [F32.bind List.map]. rewrite F32_linear_one.
    destruct (F32_linear1_run
                (F32.param (F32.Actor.params a) "l1.weight")
                (F32.param (F32.Actor.params a) "l1.bias") (F32.relu h0))
      as [Hok1 _].
    unfold F32.relu in Hok1 at 1. rewrite List.length_map in Hok1.
    rewrite Hw1, Hb1, Hlen0 in Hok1.
    destruct Hok1 as (h1 & -> & Hlen1 & Hnan1); [reflexivity|].
    cbn [F32.bind List.map]. rewrite F32_linear_one.
    destruct (F32_linear1_run
                (F32.param (F32.Actor.params a) "l2.weight")
                (F32.param (F32.Actor.params a) "l2.bias") (F32.relu h1))
      as [Hok2 _].
    unfold F32.relu in Hok2 at 1. rewrite List.length_map in Hok2.
    rewrite Hw2, Hb2, Hlen1 in Hok2.
    destruct Hok2 as (pre & -> & Hlen2 & Hnan2); [reflexivity|].
    cbn [F32.bind F32.scaled_tanh List.map].
    eexists. split; [reflexivity|]. split.
    + rewrite List.length_map. exact Hlen2.
    + intros Hin.
      assert (H256 : In F32.nan (repeat F32.nan 256)) by (left; reflexivity).
      rewrite (Hnan0 Hin) in Hnan1. rewrite F32_relu_nan in Hnan1.
      rewrite (Hnan1 H256) in Hnan2. rewrite F32_relu_nan in Hnan2.
      rewrite (Hnan2 H256).
      clear. induction action_dim as [|n IH]; simpl; [reflexivity|].
      rewrite IH. unfold F32.tanh. cbn [F32.is_nan F32.nan].
      rewrite F32_mul_nan_r. reflexivity.
  - rewrite Hbad0; [reflexivity|]. intros Heq. apply Hx. nia.
Qed.

End Widths32.

Lemma Toy32_actor_shapes :
  F32.shapes (F32.Actor.params Toy32.actor) = Actor_shapes 1 1 false false.
Proof.
  unfold F32.shapes, Toy32.actor.
  cbn [F32.Actor.params List.map fst snd length].
  rewrite !repeat_length. reflexivity.
Qed.

(** X20. In float32 and with the framework's shape errors: for an agent
    without the convolutional trunk whose actor has the parameter names
    and sizes its constructor gives for [state_dim] and [action_dim],
    [TD3.select_action] returns, with exactly [action_dim] entries, on
    every observation of [state_dim] entries ([state_dim ** 2] with
    [image_obs]), and raises [RuntimeError] on every other observation. *)
Theorem select_action_checks_width `{F32.Primitives} (agent : F32.TD3.t)
    (state_dim action_dim : nat) (obs : F32.batch) :
  let a := F32.TD3.actor agent in
  F32.TD3.image_obs agent && F32.TD3.cnn agent = false ->
  F32.Actor.image_obs a && F32.Actor.cnn a = false ->
  F32.shapes (F32.Actor.params a)
    = Actor_shapes state_dim action_dim (F32.Actor.image_obs a) (F32.Actor.cnn a) ->
  (length (concat obs) = obs_width state_dim (F32.Actor.image_obs a) ->
   exists out, F32.TD3.select_action agent obs = Ok out
     /\ length out = action_dim)
  /\ (length (concat obs) <> obs_width state_dim (F32.Actor.image_obs a) ->
      F32.TD3.select_action agent obs = Raise RuntimeError).
Proof.
  intros a Hagent Hflat Hs.
  destruct (F32_Actor_forward_row a state_dim action_dim (concat obs) Hflat Hs)
    as [Hok Hbad].
  unfold F32.TD3.select_action. rewrite Hagent. cbn [F32.bind]. fold a.
  split; intros Hx.
  - destruct (Hok Hx) as (row & Hrun & Hlen & _). exists (concat [row]).
    unfold F32.batch, F32.tensor in *.
    split; [rewrite Hrun; reflexivity|].
    cbn [concat]. rewrite app_nil_r. exact Hlen.
  - unfold F32.batch, F32.tensor in *. rewrite (Hbad Hx). reflexivity.
Qed.

Lemma select_action_checks_width_witness :
  (exists out, F32.TD3.select_action Toy32.td3 [[F32.one]] = Ok out
     /\ length out = 1)
  /\ F32.TD3.select_action Toy32.td3 [[F32.one; F32.one]] = Raise RuntimeError.
Proof.
  split.
  - apply (@select_action_checks_width Toy32.primitives Toy32.td3 1 1
             [[F32.one]] eq_refl eq_refl Toy32_actor_shapes).
    reflexivity.
  - apply (@select_action_checks_width Toy32.primitives Toy32.td3 1 1
             [[F32.one; F32.one]] eq_refl eq_refl Toy32_actor_shapes).
    discriminate.
Defined.

(** X21. In float32: for such an agent, one NaN in an observation of the
    right width makes the whole action NaN: [TD3.select_action] returns
    [action_dim] entries that are all NaN, whatever the parameters and
    [max_action] are. *)
Theorem nan_observation_gives_nan_action `{F32.Primitives}
    (agent : F32.TD3.t) (state_dim action_dim : nat) (obs : F32.batch) :
  let a := F32.TD3.actor agent in
  F32.TD3.image_obs agent && F32.TD3.cnn agent = false ->
  F32.Actor.image_obs a && F32.Actor.cnn a = false ->
  F32.shapes (F32.Actor.params a)
    = Actor_shapes state_dim action_dim (F32.Actor.image_obs a) (F32.Actor.cnn a) ->
  length (concat obs) = obs_width state_dim (F32.Actor.image_obs a) ->
  In F32.nan (concat obs) ->
  F32.TD3.select_action agent obs = Ok (repeat F32.nan action_dim).
Proof.
  intros a Hagent Hflat Hs Hx Hnan.
  destruct (F32_Actor_forward_row a state_dim action_dim (concat obs) Hflat Hs)
    as [Hok _].
  unfold F32.TD3.select_action. rewrite Hagent. cbn [F32.bind]. fold a.
  destruct (Hok Hx) as (row & Hrun & _ & Hrow).
  unfold F32.batch, F32.tensor in *. rewrite Hrun. cbn [F32.bind concat].
  rewrite (Hrow Hnan), app_nil_r. reflexivity.
Qed.

Lemma nan_observation_gives_nan_action_witness :
  F32.TD3.select_action Toy32.td3 [[F32.nan]] = Ok [F32.nan].
Proof.
  apply (@nan_observation_gives_nan_action Toy32.primitives Toy32.td3 1 1
           [[F32.nan]] eq_refl eq_refl Toy32_actor_shapes eq_refl).
  left. reflexivity.
Defined.
